(** * Dark Souls scene loader: a shallow embedding of [src/dks/scenes.ts]

    The development follows the source file:
    - [JS]: the string and array primitives of the host language that the
      loader relies on ([slice], [endsWith], [replace], [toLowerCase],
      writes to an array index past its end);
    - [ResourceSystem]: the virtual file namespace;
    - [DataFetcher]: the progress-aggregating fetcher;
    - [ModelHolder], [DKSRenderer] and the functions of [DKSSceneDesc],
      over the decoders of the sibling modules (BYML, MSB, DCX, TPF, BHD,
      BND3, FLVER) and the transport of [../fetch], which are parameters;
    - [Sample]: a small asset set to run the loader on.

    Numbers of the host language are idealised as exact rationals; the one
    non-finite value the fetcher can produce (0/0) is kept apart as [None].
    Strings are byte strings, and [toLowerCase] is the ASCII case mapping.
    A load is a function from the store (fetcher, namespace, texture
    holder) to an outcome, the final store and the events it caused;
    [throw] ends it where it stands. *)

From Stdlib Require Import ZArith QArith Qfield String Ascii List Lia Bool.
From Stdlib Require Floats.
From stdpp Require Import base option list gmap strings.

Import ListNotations.

Local Open Scope stdpp_scope.

(** ** Host-language primitives *)

Module JS.

(** [s.slice(0, n)]: the first [n] code units, or all of [s] when it is
    shorter. *)
Definition slice0 (n : nat) (s : string) : string := String.substring 0 n s.

(** [s.startsWith(p)]. *)
Fixpoint startsWith (p s : string) : bool :=
  match p, s with
  | EmptyString, _ => true
  | String a p', String b s' => if Ascii.eqb a b then startsWith p' s' else false
  | String _ _, EmptyString => false
  end.

(** Drop the first [n] code units. *)
Fixpoint drop (n : nat) (s : string) : string :=
  match n, s with
  | O, _ => s
  | S n', String _ s' => drop n' s'
  | S _, EmptyString => EmptyString
  end.

(** [s.endsWith(suf)]. *)
Definition endsWith (suf s : string) : bool :=
  let n := String.length s in
  let m := String.length suf in
  (m <=? n)%nat && String.eqb (drop (n - m) s) suf.

(** [s.replace(/c/g, '')] for a one-character pattern [c]: every
    occurrence of [c] is removed. *)
Fixpoint removeAll (c : ascii) (s : string) : string :=
  match s with
  | EmptyString => EmptyString
  | String a s' => if Ascii.eqb a c then removeAll c s' else String a (removeAll c s')
  end.

(** [s.replace(pat, '')] for a string pattern: only the FIRST occurrence
    of [pat], scanning from the left, is removed. *)
Fixpoint replaceFirst (pat s : string) : string :=
  if startsWith pat s then drop (String.length pat) s
  else match s with
       | EmptyString => EmptyString
       | String a s' => String a (replaceFirst pat s')
       end.

(** The ASCII case mapping of [toLowerCase]: 'A'..'Z' to 'a'..'z'. *)
Definition lowerChar (a : ascii) : ascii :=
  let n := nat_of_ascii a in
  if ((65 <=? n) && (n <=? 90))%nat then ascii_of_nat (n + 32) else a.

Fixpoint toLowerCase (s : string) : string :=
  match s with
  | EmptyString => EmptyString
  | String a s' => String (lowerChar a) (toLowerCase s')
  end.

(** A JS array with holes: index [i] holds [Some v] when set and [None]
    when it is a hole; reading past the end gives [undefined]. *)
Definition get {A} (l : list (option A)) (i : nat) : option A :=
  mjoin (l !! i).

(** [l[i] = v]: in range the element is replaced; past the end the array
    grows to length [i + 1] and the new indices below [i] are holes. *)
Definition set {A} (l : list (option A)) (i : nat) (v : A) : list (option A) :=
  if (i <? length l)%nat then <[i := Some v]> l
  else l ++ replicate (i - length l) None ++ [Some v].

End JS.

(** ** The virtual file namespace *)

(** An [ArrayBufferSlice] is a sequence of bytes. *)
Abbreviation ArrayBufferSlice := (list Byte.byte).

(** The decoded bulk archive: [Files] is a JS object used as a map; its
    own keys are enumerated in insertion order, each key once. *)
Record CRG1Arc := { Files : list (string * ArrayBufferSlice) }.

Module ResourceSystem.

(** [files = new Map<string, ArrayBufferSlice>()]. *)
Abbreviation t := (gmap string ArrayBufferSlice).

Definition new : t := ∅.

Definition mountFile (fileName : string) (buffer : ArrayBufferSlice) (rs : t) : t :=
  <[fileName := buffer]> rs.

(** The loop of [mountCRG1] over [Object.keys(n.Files)]. *)
Fixpoint mountEntries (kvs : list (string * ArrayBufferSlice)) (rs : t) : t :=
  match kvs with
  | [] => rs
  | (k, v) :: kvs' => mountEntries kvs' (mountFile k v rs)
  end.

Definition mountCRG1 (n : CRG1Arc) (rs : t) : t := mountEntries (Files n) rs.

Definition lookupFile (filename : string) (rs : t) : option ArrayBufferSlice :=
  rs !! filename.

End ResourceSystem.

(** ** The progress-aggregating fetcher *)

Module DataFetcher.

(** [fileProgressables] holds, per registered download, its current
    [progress] field. [progressMeter] is the sink: the values handed to
    [progressMeter.setProgress], oldest first; [None] stands for the NaN
    that 0/0 evaluates to. *)
Record t := {
  fileProgressables : list Q;
  progressMeter : list (option Q)
}.

Definition new : t := {| fileProgressables := []; progressMeter := [] |}.

(** The loop of [calcProgress]: [n = 0; n += progress] from the left. *)
Definition sumProgress (ps : list Q) : Q := fold_left Qplus ps 0%Q.

(** [n / fileProgressables.length]; with no task this is 0/0. *)
Definition calcProgress (ps : list Q) : option Q :=
  match length ps with
  | O => None
  | S _ => Some (sumProgress ps / inject_Z (Z.of_nat (length ps)))%Q
  end.

Definition setProgress (f : t) : t :=
  {| fileProgressables := fileProgressables f;
     progressMeter := progressMeter f ++ [calcProgress (fileProgressables f)] |}.

(** [fetchData]: the new download [p], whose progress field reads [p0], is
    pushed, its [onProgress] callback is installed, and the aggregate is
    reported. *)
Definition fetchData (p0 : Q) (f : t) : t :=
  setProgress {| fileProgressables := fileProgressables f ++ [p0];
                 progressMeter := progressMeter f |}.

(** The callback installed by [fetchData] on the [i]-th download: the
    transport has set its progress field to [q] and calls [onProgress].
    Only registered downloads have the callback. *)
Definition onProgress (i : nat) (q : Q) (f : t) : t :=
  if (i <? length (fileProgressables f))%nat
  then setProgress {| fileProgressables := <[i := q]> (fileProgressables f);
                      progressMeter := progressMeter f |}
  else f.

(** What can happen to a fetcher during a load. *)
Inductive event :=
| Fetch (p0 : Q)
| Progress (i : nat) (q : Q).

Definition step (f : t) (e : event) : t :=
  match e with
  | Fetch p0 => fetchData p0 f
  | Progress i q => onProgress i q f
  end.

Definition run (evs : list event) : t := fold_left step evs new.

(** The value the sink currently shows: the last one it was given. *)
Definition reported (f : t) : option Q := mjoin (last (progressMeter f)).

(** The unweighted arithmetic mean, as the specification words it. *)
Definition arithmetic_mean (ps : list Q) : Q :=
  (foldr Qplus 0 ps / inject_Z (Z.of_nat (length ps)))%Q.

End DataFetcher.

(** ** Decoded containers

    The shapes the loader reads from what the decoders of the sibling
    modules return. *)

Module MSB.
(** One placement entry: [type] is the kind discriminant, [flverPath] the
    referenced model file. *)
Record Model := { type : Z; flverPath : string }.
Record t := { models : list Model }.
End MSB.

Module TPF.
Record Texture := { name : string; data : ArrayBufferSlice }.
Record t := { textures : list Texture }.
End TPF.

Module BHD.
Record FileRecord := { name : string; buffer : ArrayBufferSlice }.
Record t := { fileRecords : list FileRecord }.
End BHD.

Module BND3.
(** The block-name container; the loader never looks inside it. *)
Record t := { files : list (string * ArrayBufferSlice) }.
End BND3.

Module FLVER.
(** Only the number of entries of [batches] is read here. *)
Record FLVER := { batches : list ArrayBufferSlice }.
End FLVER.

(** ** Exceptions and the loader monad *)

Inductive error :=
| AssertionError                 (* [assert(false)] of [../util] *)
| TypeError                      (* a property read on [undefined] *)
| DecodeError (decoder : string) (* thrown by a decoder *)
| FetchError (path : string).    (* a rejected download *)

Inductive result (A : Type) :=
| Ok (a : A)
| Throw (e : error).
Arguments Ok {A} a.
Arguments Throw {A} e.

Definition is_Ok {A} (r : result A) : bool :=
  match r with Ok _ => true | Throw _ => false end.

(** The decoders of the sibling modules. A namespace lookup is handed to
    them as it is, so those called on a lookup result take
    [option ArrayBufferSlice]: [None] is [undefined]. *)
Record Decoders := {
  BYML_parse : ArrayBufferSlice → result CRG1Arc;
  MSB_parse : option ArrayBufferSlice → string → result MSB.t;
  DCX_decompressBuffer : option ArrayBufferSlice → result ArrayBufferSlice;
  TPF_parse : ArrayBufferSlice → result TPF.t;
  BHD_parse : option ArrayBufferSlice → option ArrayBufferSlice → result BHD.t;
  BND3_parse : option ArrayBufferSlice → result BND3.t;
  FLVER_parse : ArrayBufferSlice → result FLVER.FLVER
}.

(** The transport behind [fetchData] of [../fetch]: what each download
    resolves to ([None]: it is rejected), the progress a fresh download
    starts with, and which of the two downloads of a load completes
    first. *)
Record Network := {
  respond : string → option ArrayBufferSlice;
  initialProgress : string → Q;
  arcFirst : bool
}.

(** What a load does to the outside, in order. *)
Inductive event :=
| Fetch (path : string)       (* a download is started *)
| Lookup (path : string)      (* [resourceSystem.lookupFile] *)
| ConsoleLog (b : BND3.t).    (* [console.log] *)

(** The objects a load creates and mutates: the fetcher, the namespace and
    the texture holder (the textures registered so far, in order). *)
Record store := {
  dataFetcher : DataFetcher.t;
  resourceSystem : gmap string ArrayBufferSlice;
  textureHolder : list TPF.Texture
}.

Definition M (A : Type) : Type := store → result A * store * list event.

Definition ret {A} (a : A) : M A := fun s => (Ok a, s, []).

Definition throw {A} (e : error) : M A := fun s => (Throw e, s, []).

Definition bind {A B} (m : M A) (k : A → M B) : M B :=
  fun s =>
    match m s with
    | (Ok a, s1, evs1) =>
        match k a s1 with
        | (r, s2, evs2) => (r, s2, evs1 ++ evs2)
        end
    | (Throw e, s1, evs1) => (Throw e, s1, evs1)
    end.

Global Instance M_ret : MRet M := @ret.
Global Instance M_bind : MBind M := fun A B k m => bind m k.

Definition lift {A} (r : result A) : M A := fun s => (r, s, []).

Definition emit (e : event) : M unit := fun s => (Ok tt, s, [e]).

(** [assert(b)] of [../util]. *)
Definition assert (b : bool) : M unit :=
  if b then ret tt else throw AssertionError.

Definition outcome {A} (x : result A * store * list event) : result A := x.1.1.
Definition final {A} (x : result A * store * list event) : store := x.1.2.
Definition trace {A} (x : result A * store * list event) : list event := x.2.

(** The namespace lookups of a trace, in order. *)
Definition lookups (evs : list event) : list string :=
  omap (fun e => match e with Lookup p => Some p | _ => None end) evs.

(** A trace without its console output. *)
Definition silent (evs : list event) : list event :=
  List.filter (fun e => match e with ConsoleLog _ => false | _ => true end) evs.

(** ** The loader *)

(** [const pathBase = `dks`]. *)
Definition pathBase : string := "dks".

(** [new FLVERData(device, flver)]: the GPU-resident copy of one model. *)
Record FLVERData := { flver : FLVER.FLVER }.

(** What [destroy] calls, in order. *)
Inductive release :=
| SuperDestroy                       (* [super.destroy(device)] *)
| SceneRendererDestroy (k : nat)     (* [sceneRenderers[k].destroy(device)] *)
| TextureHolderDestroy               (* [textureHolder.destroy(device)] *)
| ModelHolderDestroy                 (* [modelHolder.destroy(device)] *)
| FLVERDataDestroy (i : nat).        (* [flverData[i].destroy(device)] *)

Module ModelHolder.

Record t := { flverData : list (option FLVERData) }.

(** The constructor's loop, from index [i] on: [rest] is [flver] from
    [i]; a hole is skipped, a model is uploaded into the same index. *)
Fixpoint upload (i : nat) (rest : list (option FLVER.FLVER))
    (acc : list (option FLVERData)) : list (option FLVERData) :=
  match rest with
  | [] => acc
  | None :: rest' => upload (S i) rest' acc
  | Some f :: rest' => upload (S i) rest' (JS.set acc i {| flver := f |})
  end.

Definition new (flver : list (option FLVER.FLVER)) : t :=
  {| flverData := upload 0 flver [] |}.

(** The loop of [destroy], from index [i] on. *)
Fixpoint destroyFrom (i : nat) (rest : list (option FLVERData)) : list release :=
  match rest with
  | [] => []
  | None :: rest' => destroyFrom (S i) rest'
  | Some _ :: rest' => FLVERDataDestroy i :: destroyFrom (S i) rest'
  end.

Definition destroy (h : t) : list release := destroyFrom 0 (flverData h).

End ModelHolder.

(** [new MSBRenderer(device, textureHolder, modelHolder, msb)]: the
    sub-scene renderer, by what it is constructed from. *)
Record MSBRenderer := {
  msbTextureHolder : list TPF.Texture;
  msbModelHolder : ModelHolder.t;
  msb : MSB.t
}.

Module DKSRenderer.

Record t := {
  sceneRenderers : list MSBRenderer;
  textureHolder : list TPF.Texture;
  modelHolder : ModelHolder.t
}.

Definition new (textureHolder : list TPF.Texture) (modelHolder : ModelHolder.t) : t :=
  {| sceneRenderers := []; textureHolder := textureHolder; modelHolder := modelHolder |}.

(** [sceneRenderers.push(sceneRenderer)]. *)
Definition addSceneRenderer (sceneRenderer : MSBRenderer) (r : t) : t :=
  {| sceneRenderers := sceneRenderers r ++ [sceneRenderer];
     textureHolder := textureHolder r;
     modelHolder := modelHolder r |}.

(** The loop of [destroy] over [sceneRenderers], from index [k] on. *)
Fixpoint destroyRenderers (k : nat) (rest : list MSBRenderer) : list release :=
  match rest with
  | [] => []
  | _ :: rest' => SceneRendererDestroy k :: destroyRenderers (S k) rest'
  end.

Definition destroy (r : t) : list release :=
  [SuperDestroy]
  ++ destroyRenderers 0 (sceneRenderers r)
  ++ [TextureHolderDestroy]
  ++ ModelHolderDestroy :: ModelHolder.destroy (modelHolder r).

(** [new LayerPanel(flverInstances)]: a layer panel, by the sub-scene
    renderer whose instances it lists. *)
Inductive Panel :=
| LayerPanel (sceneRenderer : MSBRenderer).

(** [createPanels]: [sceneRenderers[0]] is [undefined] on an empty array,
    and reading [flverInstances] from it throws. *)
Definition createPanels (r : t) : result (list Panel) :=
  match sceneRenderers r with
  | [] => Throw TypeError
  | sceneRenderer :: _ => Ok [LayerPanel sceneRenderer]
  end.

(** What [prepareToRender] calls, in order. *)
Inductive frameCall :=
| SceneRendererPrepare (k : nat).    (* [sceneRenderers[k].prepareToRender(..)] *)

(** The loop of [prepareToRender] over [sceneRenderers], from index [k]
    on. *)
Fixpoint prepareRenderers (k : nat) (rest : list MSBRenderer) : list frameCall :=
  match rest with
  | [] => []
  | _ :: rest' => SceneRendererPrepare k :: prepareRenderers (S k) rest'
  end.

Definition prepareToRender (r : t) : list frameCall :=
  prepareRenderers 0 (sceneRenderers r).

End DKSRenderer.

(** The store after [textures] have been added to the texture holder. *)
Definition registered (textures : list TPF.Texture) (s : store) : store :=
  {| dataFetcher := dataFetcher s;
     resourceSystem := resourceSystem s;
     textureHolder := textureHolder s ++ textures |}.

Section DKSSceneDesc.

Context (D : Decoders) (net : Network).

(** [resourceSystem.lookupFile(path)]. *)
Definition lookupFile (path : string) : M (option ArrayBufferSlice) :=
  fun s => (Ok (ResourceSystem.lookupFile path (resourceSystem s)), s, [Lookup path]).

Definition mountFile (fileName : string) (buffer : ArrayBufferSlice) : M unit :=
  fun s => (Ok tt,
            {| dataFetcher := dataFetcher s;
               resourceSystem := ResourceSystem.mountFile fileName buffer (resourceSystem s);
               textureHolder := textureHolder s |}, []).

Definition mountCRG1 (n : CRG1Arc) : M unit :=
  fun s => (Ok tt,
            {| dataFetcher := dataFetcher s;
               resourceSystem := ResourceSystem.mountCRG1 n (resourceSystem s);
               textureHolder := textureHolder s |}, []).

(** [textureHolder.addTextures(device, textures)]. *)
Definition addTextures (textures : list TPF.Texture) : M unit :=
  fun s => (Ok tt, registered textures s, []).

Definition getTextureHolder : M (list TPF.Texture) :=
  fun s => (Ok (textureHolder s), s, []).

(** The synchronous part of [dataFetcher.fetchData(path)]: the download is
    started and registered with the fetcher. *)
Definition fetchData (path : string) : M unit :=
  fun s => (Ok tt,
            {| dataFetcher := DataFetcher.fetchData (initialProgress net path) (dataFetcher s);
               resourceSystem := resourceSystem s;
               textureHolder := textureHolder s |}, [Fetch path]).

(** [await] on the promise of the download of [path]. *)
Definition await (path : string) : M ArrayBufferSlice :=
  match respond net path with
  | Some buffer => ret buffer
  | None => throw (FetchError path)
  end.

(** [fetchCRG1Arc] and [fetchLoose] are asynchronous: each runs up to its
    [await] when called (the download is started) and resumes when the
    download has completed. *)
Definition fetchCRG1Arc_start (archiveName : string) : M unit :=
  fetchData (pathBase +:+ "/" +:+ archiveName).

Definition fetchCRG1Arc_resume (archiveName : string) : M unit :=
  buffer ← await (pathBase +:+ "/" +:+ archiveName);
  crg1Arc ← lift (BYML_parse D buffer);
  mountCRG1 crg1Arc.

Definition fetchLoose_start (fileName : string) : M unit :=
  fetchData (pathBase +:+ "/" +:+ fileName).

Definition fetchLoose_resume (fileName : string) : M unit :=
  buffer ← await (pathBase +:+ "/" +:+ fileName);
  mountFile fileName buffer.

(** [await Promise.all([fetchCRG1Arc(..), fetchLoose(..)])]: both calls
    are made, so both downloads are started, before anything is awaited;
    the two resume in the order their downloads complete, and the first
    rejection rejects the whole. *)
Definition fetchAll (arcName : string) : M unit :=
  fetchCRG1Arc_start arcName;;
  fetchLoose_start "mtd/Mtd.mtdbnd";;
  if arcFirst net
  then (fetchCRG1Arc_resume arcName;; fetchLoose_resume "mtd/Mtd.mtdbnd")
  else (fetchLoose_resume "mtd/Mtd.mtdbnd";; fetchCRG1Arc_resume arcName).

Definition loadTextureTPFDCX (baseName : string) : M unit :=
  buffer ← lookupFile (baseName +:+ ".tpf.dcx");
  decompressed ← lift (DCX_decompressBuffer D buffer);
  tpf ← lift (TPF_parse D decompressed);
  addTextures (TPF.textures tpf).

(** [r.name.replace(/\\/g, '').replace('.tpf.dcx', '').toLowerCase()]. *)
Definition key1 (name : string) : string :=
  JS.toLowerCase (JS.replaceFirst ".tpf.dcx" (JS.removeAll "\"%char name)).

(** One turn of the loop of [loadTextureBHD]. *)
Definition loadRecord (r : BHD.FileRecord) : M unit :=
  assert (JS.endsWith ".tpf.dcx" (BHD.name r));;
  decompressed ← lift (DCX_decompressBuffer D (Some (BHD.buffer r)));
  tpf ← lift (TPF_parse D decompressed);
  assert (length (TPF.textures tpf) =? 1)%nat;;
  match TPF.textures tpf with
  | [] => throw TypeError
  | t0 :: _ =>
      let key2 := JS.toLowerCase (TPF.name t0) in
      assert (String.eqb (key1 (BHD.name r)) key2);;
      addTextures (TPF.textures tpf)
  end.

Fixpoint loadRecords (rs : list BHD.FileRecord) : M unit :=
  match rs with
  | [] => ret tt
  | r :: rs' => loadRecord r;; loadRecords rs'
  end.

Definition loadTextureBHD (baseName : string) : M unit :=
  bhdBuffer ← lookupFile (baseName +:+ ".tpfbhd");
  bdtBuffer ← lookupFile (baseName +:+ ".tpfbdt");
  bhd ← lift (BHD_parse D bhdBuffer bdtBuffer);
  loadRecords (BHD.fileRecords bhd).

(** The model loop of [createScene], from index [i] on: [rest] is
    [msb.models] from [i], [flver] the array filled so far. *)
Fixpoint resolveModels (i : nat) (rest : list MSB.Model)
    (flver : list (option FLVER.FLVER)) : M (list (option FLVER.FLVER)) :=
  match rest with
  | [] => ret flver
  | m :: rest' =>
      if (MSB.type m =? 0)%Z then
        flverBuffer ← lookupFile (MSB.flverPath m);
        decompressed ← lift (DCX_decompressBuffer D flverBuffer);
        flver_ ← lift (FLVER_parse D decompressed);
        resolveModels (S i) rest'
          (if (0 <? length (FLVER.batches flver_))%nat then JS.set flver i flver_ else flver)
      else resolveModels (S i) rest' flver
  end.

Definition msbPath (id : string) : string := "/map/MapStudio/" +:+ id +:+ ".msb".

Definition mapKey (id : string) : string := JS.slice0 3 id.

Definition bankName (id suffix : string) : string :=
  "/map/" +:+ mapKey id +:+ "/" +:+ mapKey id +:+ "_" +:+ suffix.

(** [createScene] after the joint [await]. *)
Definition assemble (id : string) : M DKSRenderer.t :=
  msbBuffer ← lookupFile (msbPath id);
  msb ← lift (MSB_parse D msbBuffer id);
  mtdBuffer ← lookupFile "mtd/Mtd.mtdbnd";
  mtdBnd ← lift (BND3_parse D mtdBuffer);
  emit (ConsoleLog mtdBnd);;
  flver ← resolveModels 0 (MSB.models msb) [];
  let modelHolder := ModelHolder.new flver in
  loadTextureBHD (bankName id "0000");;
  loadTextureBHD (bankName id "0001");;
  loadTextureBHD (bankName id "0002");;
  loadTextureBHD (bankName id "0003");;
  loadTextureTPFDCX (bankName id "9999");;
  textureHolder ← getTextureHolder;
  let sceneRenderer :=
    {| msbTextureHolder := textureHolder; msbModelHolder := modelHolder; msb := msb |} in
  let renderer := DKSRenderer.new textureHolder modelHolder in
  ret (DKSRenderer.addSceneRenderer sceneRenderer renderer).

Definition createScene (id : string) : M DKSRenderer.t :=
  let arcName := id +:+ "_arc.crg1" in
  fetchAll arcName;;
  assemble id.

End DKSSceneDesc.

(** [createScene] from the model loop on, for the placement table [msb]:
    the part of [assemble] that comes after the [console.log]. *)
Definition build (D : Decoders) (id : string) (msb : MSB.t) : M DKSRenderer.t :=
  flver ← resolveModels D 0 (MSB.models msb) [];
  let modelHolder := ModelHolder.new flver in
  loadTextureBHD D (bankName id "0000");;
  loadTextureBHD D (bankName id "0001");;
  loadTextureBHD D (bankName id "0002");;
  loadTextureBHD D (bankName id "0003");;
  loadTextureTPFDCX D (bankName id "9999");;
  textureHolder ← getTextureHolder;
  let sceneRenderer :=
    {| msbTextureHolder := textureHolder; msbModelHolder := modelHolder; msb := msb |} in
  let renderer := DKSRenderer.new textureHolder modelHolder in
  ret (DKSRenderer.addSceneRenderer sceneRenderer renderer).

(** The namespace lookups of the five texture containers of a scene. *)
Definition textureLookups (id : string) : list string :=
  [ bankName id "0000" +:+ ".tpfbhd"; bankName id "0000" +:+ ".tpfbdt";
    bankName id "0001" +:+ ".tpfbhd"; bankName id "0001" +:+ ".tpfbdt";
    bankName id "0002" +:+ ".tpfbhd"; bankName id "0002" +:+ ".tpfbdt";
    bankName id "0003" +:+ ".tpfbhd"; bankName id "0003" +:+ ".tpfbdt";
    bankName id "9999" +:+ ".tpf.dcx" ].

(** A load starts from a fresh fetcher, an empty namespace and (once the
    downloads are in) an empty texture holder. *)
Definition fresh : store :=
  {| dataFetcher := DataFetcher.new; resourceSystem := ResourceSystem.new; textureHolder := [] |}.

(** Decompression followed by geometry decoding, as the model loop chains
    them on a lookup result. *)
Definition decodeModel (D : Decoders) (flverBuffer : option ArrayBufferSlice)
    : result FLVER.FLVER :=
  match DCX_decompressBuffer D flverBuffer with
  | Ok decompressed => FLVER_parse D decompressed
  | Throw e => Throw e
  end.

(** The slot the entry [m] asks for: its decoded model when it is
    model-kind and the model has a batch. *)
Definition slotOf (D : Decoders) (s : store) (m : MSB.Model) : option FLVER.FLVER :=
  if (MSB.type m =? 0)%Z then
    match decodeModel D (resourceSystem s !! MSB.flverPath m) with
    | Ok g => if (0 <? length (FLVER.batches g))%nat then Some g else None
    | Throw _ => None
    end
  else None.

(** The entries the loop can get past. *)
Definition decodes (D : Decoders) (s : store) (m : MSB.Model) : bool :=
  negb (MSB.type m =? 0)%Z || is_Ok (decodeModel D (resourceSystem s !! MSB.flverPath m)).

(** The decoders [D] with another block-name container decoder. *)
Definition withBND3 (D : Decoders) (f : option ArrayBufferSlice → result BND3.t) : Decoders :=
  {| BYML_parse := BYML_parse D;
     MSB_parse := MSB_parse D;
     DCX_decompressBuffer := DCX_decompressBuffer D;
     TPF_parse := TPF_parse D;
     BHD_parse := BHD_parse D;
     BND3_parse := f;
     FLVER_parse := FLVER_parse D |}.

(** Decompression followed by texture-container decoding. *)
Definition decodeTextures (D : Decoders) (buffer : option ArrayBufferSlice)
    : result TPF.t :=
  match DCX_decompressBuffer D buffer with
  | Ok decompressed => TPF_parse D decompressed
  | Throw e => Throw e
  end.

(** The namespace a model entry makes the loop consult, if any. *)
Definition modelLookups (ms : list MSB.Model) : list string :=
  omap (fun m => if (MSB.type m =? 0)%Z then Some (MSB.flverPath m) else None) ms.

(** The normalisation of a declared name as the specification words it:
    path separators stripped, the suffix stripped, lower-cased. *)
Definition stripSuffix (suf s : string) : string :=
  if JS.endsWith suf s
  then String.substring 0 (String.length s - String.length suf) s
  else s.

Definition spec_key1 (name : string) : string :=
  JS.toLowerCase (stripSuffix ".tpf.dcx" (JS.removeAll "\"%char name)).

(** ** A small asset set

    Toy decoders and a toy download, to run the loader on: compression is
    the identity, a texture container is a comma-separated list of texture
    names, a split bank has one record whose name is the header, a
    placement table has one entry per byte (model-kind for the byte 'm'),
    a model has one batch per byte. Every decoder throws on [undefined]. *)

Module Sample.

Definition bytes (s : string) : ArrayBufferSlice := String.list_byte_of_string s.

Definition defined {A} (f : ArrayBufferSlice → result A)
    (ob : option ArrayBufferSlice) : result A :=
  match ob with
  | Some b => f b
  | None => Throw TypeError
  end.

(** Split at commas. *)
Fixpoint names (cur : string) (s : string) : list string :=
  match s with
  | EmptyString => [String.rev cur]
  | String a s' =>
      if Ascii.eqb a ","%char then String.rev cur :: names EmptyString s'
      else names (String a cur) s'
  end.

Definition parseTPF (b : ArrayBufferSlice) : result TPF.t :=
  match b with
  | [] => Throw (DecodeError "TPF")
  | _ => Ok {| TPF.textures :=
                 map (fun n => {| TPF.name := n; TPF.data := [] |})
                     (names EmptyString (String.string_of_list_byte b)) |}
  end.

Definition parseBHD (h d : ArrayBufferSlice) : result BHD.t :=
  match h with
  | [] => Ok {| BHD.fileRecords := [] |}
  | _ => Ok {| BHD.fileRecords :=
                 [{| BHD.name := String.string_of_list_byte h; BHD.buffer := d |}] |}
  end.

Definition parseMSB (b : ArrayBufferSlice) : result MSB.t :=
  Ok {| MSB.models :=
          map (fun c => {| MSB.type := if Byte.eqb c Byte.x6d then 0 else 1;
                           MSB.flverPath := "/model/" +:+ String.string_of_list_byte [c]
                                            +:+ ".flver.dcx" |}) b |}.

Definition parseFLVER (b : ArrayBufferSlice) : result FLVER.FLVER :=
  Ok {| FLVER.batches := map (fun c => [c]) b |}.

Definition decoders (arc : CRG1Arc) : Decoders :=
  {| BYML_parse := fun b => match b with [] => Throw (DecodeError "BYML") | _ => Ok arc end;
     MSB_parse := fun ob _ => defined parseMSB ob;
     DCX_decompressBuffer := defined Ok;
     TPF_parse := parseTPF;
     BHD_parse := fun oh od =>
       match oh, od with
       | Some h, Some d => parseBHD h d
       | _, _ => Throw TypeError
       end;
     BND3_parse := defined (fun b => Ok {| BND3.files := [("Mtd", b)] |});
     FLVER_parse := parseFLVER |}.

(** The archive of scene [m10_01_00_00]: a placement table with a model
    entry and a non-model entry, the model (two batches), the four split
    banks (the first with one texture) and the loose container (two
    textures). *)
Definition arc : CRG1Arc :=
  {| Files :=
       [ ("/map/MapStudio/m10_01_00_00.msb", bytes "mP");
         ("/model/m.flver.dcx", bytes "12");
         ("/map/m10/m10_0000.tpfbhd", bytes "X.tpf.dcx");
         ("/map/m10/m10_0000.tpfbdt", bytes "x");
         ("/map/m10/m10_0001.tpfbhd", []);
         ("/map/m10/m10_0001.tpfbdt", []);
         ("/map/m10/m10_0002.tpfbhd", []);
         ("/map/m10/m10_0002.tpfbdt", []);
         ("/map/m10/m10_0003.tpfbhd", []);
         ("/map/m10/m10_0003.tpfbdt", []);
         ("/map/m10/m10_9999.tpf.dcx", bytes "a,b") ] |}.

(** The same archive without the model file. *)
Definition arcNoModel : CRG1Arc :=
  {| Files := List.filter (fun kv => negb (String.eqb kv.1 "/model/m.flver.dcx")) (Files arc) |}.

(** The archive [arc] with other bytes at the two files of the first
    bank. *)
Definition withBank0 (header data : string) : CRG1Arc :=
  {| Files :=
       map (fun kv : string * ArrayBufferSlice =>
              if String.eqb kv.1 "/map/m10/m10_0000.tpfbhd" then (kv.1, bytes header)
              else if String.eqb kv.1 "/map/m10/m10_0000.tpfbdt" then (kv.1, bytes data)
              else kv)
           (Files arc) |}.

(** The record of the first bank has a name that contains the suffix
    twice, over the texture that the name gives once its suffix is
    stripped. *)
Definition arcDoubled : CRG1Arc := withBank0 "x.tpf.dcxy.tpf.dcx" "x.tpf.dcxy".

(** The record of the first bank is named [X.tpf.dcx] over the texture
    [y]. *)
Definition arcMismatch : CRG1Arc := withBank0 "X.tpf.dcx" "y".

(** Every download resolves. *)
Definition net : Network :=
  {| respond := fun _ => Some (bytes "?");
     initialProgress := fun _ => 0%Q;
     arcFirst := true |}.

(** The download at [path] is rejected, the others resolve. *)
Definition netWithout (path : string) : Network :=
  {| respond := fun p => if String.eqb p path then None else Some (bytes "?");
     initialProgress := fun _ => 0%Q;
     arcFirst := true |}.

End Sample.

(** ** Further vocabulary *)

(** [s.includes(c)] for a character. *)
Fixpoint includesChar (c : ascii) (s : string) : bool :=
  match s with
  | EmptyString => false
  | String a s' => Ascii.eqb a c || includesChar c s'
  end.

(** The record [r] of a split bank passes the three assertions of
    [loadTextureBHD] with the texture [t]. *)
Definition accepts (D : Decoders) (r : BHD.FileRecord) (t : TPF.Texture) : Prop :=
  JS.endsWith ".tpf.dcx" (BHD.name r) = true
  ∧ decodeTextures D (Some (BHD.buffer r)) = Ok {| TPF.textures := [t] |}
  ∧ key1 (BHD.name r) = JS.toLowerCase (TPF.name t).

(** The transport [net] with the other download completing first. *)
Definition completing (first : bool) (net : Network) : Network :=
  {| respond := respond net;
     initialProgress := initialProgress net;
     arcFirst := first |}.

(** [s'] is [s] with textures added to the texture holder and nothing
    else changed. *)
Definition texturesAdded (s s' : store) : Prop :=
  dataFetcher s' = dataFetcher s
  ∧ resourceSystem s' = resourceSystem s
  ∧ ∃ ts, textureHolder s' = textureHolder s ++ ts.

(** A progress fraction. *)
Definition fraction (p : Q) : Prop := (0 <= p)%Q ∧ (p <= 1)%Q.

(** An event of the fetcher that carries a progress fraction. *)
Definition fractionEvent (e : DataFetcher.event) : Prop :=
  match e with
  | DataFetcher.Fetch p0 => fraction p0
  | DataFetcher.Progress _ q => fraction q
  end.

(** [const sceneDescs]: the scenes on offer, by identifier and name. *)
Definition sceneDescs : list (string * string) :=
  [ ("m10_01_00_00", "Undead Burg / Parish");
    ("m10_00_00_00", "The Depths");
    ("m10_02_00_00", "Firelink Shrine");
    ("m11_00_00_00", "Painted World");
    ("m12_00_00_00", "Darkroot Forest");
    ("m12_00_00_01", "Darkroot Basin");
    ("m12_01_00_00", "Royal Wood");
    ("m13_00_00_00", "The Catacombs");
    ("m13_01_00_00", "Tomb of the Giants");
    ("m13_02_00_00", "Ash Lake");
    ("m14_00_00_00", "Blighttown");
    ("m14_01_00_00", "Demon Ruins");
    ("m15_00_00_00", "Sen's Fortress");
    ("m15_01_00_00", "Anor Londo");
    ("m16_00_00_00", "New Londo Ruins");
    ("m17_00_00_00", "Duke's Archives / Crystal Caves");
    ("m18_00_00_00", "Kiln of the First Flame");
    ("m18_01_00_00", "Undead Asylum") ].

(** ** The fetcher over the numbers of the host language

    [DataFetcher] above computes with exact rationals. The code computes
    with the numbers of the host language, IEEE 754 doubles, in which
    every sum and quotient is rounded and 0/0 is a number like any other
    (NaN). The fetcher is given here once more over any arithmetic that
    has what [calcProgress] uses: a zero, a sum, a quotient, the number of
    a length, and the order of [<=]. *)

Class Number (N : Type) := {
  num_zero : N;
  num_add : N → N → N;
  num_div : N → N → N;
  num_ofNat : nat → N;
  num_le : N → N → Prop
}.


(** Exact rationals. *)
Global Instance Q_Number : Number Q := {|
  num_zero := 0%Q;
  num_add := Qplus;
  num_div := Qdiv;
  num_ofNat := fun n => inject_Z (Z.of_nat n);
  num_le := Qle
|}.

(** Doubles: the primitive binary64 floating-point numbers, rounded to
    nearest. The number of a length is counted up by ones, as [push]
    does; it is exact below 2^53, far above the length of any array. *)
Global Instance double_Number : Number PrimFloat.float := {|
  num_zero := PrimFloat.of_uint63 (Uint63.of_Z 0);
  num_add := PrimFloat.add;
  num_div := PrimFloat.div;
  num_ofNat := fun n =>
    Nat.iter n (fun x => PrimFloat.add x (PrimFloat.of_uint63 (Uint63.of_Z 1)))
      (PrimFloat.of_uint63 (Uint63.of_Z 0));
  num_le := fun x y => PrimFloat.leb x y = true
|}.


Module NumericFetcher.

Section Over.

Context {N : Type} `{Number N}.

(** [fileProgressables] and the values given to the sink, oldest
    first. *)
Record t := {
  fileProgressables : list N;
  progressMeter : list N
}.

Definition new : t := {| fileProgressables := []; progressMeter := [] |}.

(** [calcProgress]: [n = 0], [n += progress] from the left, then
    [n / length]. *)
Definition calcProgress (ps : list N) : N :=
  num_div (fold_left num_add ps num_zero) (num_ofNat (length ps)).

Definition setProgress (f : t) : t :=
  {| fileProgressables := fileProgressables f;
     progressMeter := progressMeter f ++ [calcProgress (fileProgressables f)] |}.

Definition fetchData (p0 : N) (f : t) : t :=
  setProgress {| fileProgressables := fileProgressables f ++ [p0];
                 progressMeter := progressMeter f |}.

Definition onProgress (i : nat) (q : N) (f : t) : t :=
  if (i <? length (fileProgressables f))%nat
  then setProgress {| fileProgressables := <[i := q]> (fileProgressables f);
                      progressMeter := progressMeter f |}
  else f.

Inductive event :=
| Fetch (p0 : N)
| Progress (i : nat) (q : N).

Definition step (f : t) (e : event) : t :=
  match e with
  | Fetch p0 => fetchData p0 f
  | Progress i q => onProgress i q f
  end.

Definition run (evs : list event) : t := fold_left step evs new.

(** The value the sink currently shows, if it was given one. *)
Definition reported (f : t) : option N := last (progressMeter f).

End Over.

Arguments t N : clear implicits.
Arguments event N : clear implicits.

End NumericFetcher.

(** The double one half. *)
Definition half : PrimFloat.float := PrimFloat.div (num_ofNat 1) (num_ofNat 2).

(** * Properties *)

(** ** The model at work *)

Example slice0_m10 : JS.slice0 3 "m10_01_00_00" = "m10" ∧ JS.slice0 3 "m1" = "m1".
Proof. by split. Qed.

Example set_past_end :
  JS.set [Some 1%nat] 3 7%nat = [Some 1%nat; None; None; Some 7%nat]
  ∧ JS.get (JS.set [Some 1%nat] 3 7%nat) 2 = None.
Proof. by split. Qed.

Example key1_of_a_bank_name :
  key1 "X.tpf.dcx" = "x" ∧ key1 "m10\M10_Wall.tpf.dcx" = "m10m10_wall".
Proof. by split. Qed.

Example progress_of_two_downloads :
  DataFetcher.progressMeter
    (DataFetcher.run [DataFetcher.Fetch 0; DataFetcher.Fetch 0; DataFetcher.Progress 1 1])
  = [Some (0 / 1)%Q; Some ((0 + 0) / 2)%Q; Some ((0 + 1) / 2)%Q].
Proof. reflexivity. Qed.

(** The sample scene: entry 0 is a model with two batches, entry 1 is not
    a model; the holder has slot 0 and no slot 1; the textures are
    registered bank by bank, the loose container last. *)
Example sample_scene :
  ∃ r, outcome (createScene (Sample.decoders Sample.arc) Sample.net "m10_01_00_00" fresh) = Ok r
       ∧ (∃ d, JS.get (ModelHolder.flverData (DKSRenderer.modelHolder r)) 0 = Some d
               ∧ length (FLVER.batches (flver d)) = 2%nat)
       ∧ JS.get (ModelHolder.flverData (DKSRenderer.modelHolder r)) 1 = None
       ∧ TPF.name <$> DKSRenderer.textureHolder r = ["x"; "a"; "b"]
       ∧ length (DKSRenderer.sceneRenderers r) = 1%nat.
Proof.
  eexists. split; [vm_compute; reflexivity|].
  split; [eexists; split; reflexivity|]. by repeat split.
Qed.

(** ** The fetcher *)

Section DataFetcherFacts.

Import DataFetcher.

Lemma fold_left_Qplus (ps : list Q) (a : Q) :
  (fold_left Qplus ps a == a + foldr Qplus 0 ps)%Q.
Proof.
  revert a. induction ps as [|p ps IH]; intros a; simpl.
  - ring.
  - rewrite IH. ring.
Qed.

Lemma sumProgress_foldr (ps : list Q) : (sumProgress ps == foldr Qplus 0 ps)%Q.
Proof. unfold sumProgress. rewrite fold_left_Qplus. ring. Qed.

Lemma sumProgress_snoc (ps : list Q) (p : Q) :
  (sumProgress (ps ++ [p]) == sumProgress ps + p)%Q.
Proof. unfold sumProgress. rewrite fold_left_app. simpl. reflexivity. Qed.

Lemma sumProgress_nonneg (ps : list Q) :
  Forall (fun p => (0 <= p)%Q) ps → (0 <= sumProgress ps)%Q.
Proof.
  intros H. rewrite sumProgress_foldr.
  induction H as [|p ps Hp _ IH]; simpl.
  - apply Qle_refl.
  - replace 0%Q with (0 + 0)%Q by reflexivity. by apply Qplus_le_compat.
Qed.

Lemma calcProgress_cases (ps : list Q) :
  (ps = [] ∧ calcProgress ps = None)
  ∨ (ps ≠ [] ∧ calcProgress ps
               = Some (sumProgress ps / inject_Z (Z.of_nat (length ps)))%Q).
Proof. destruct ps; [left|right]; done. Qed.

Lemma calcProgress_mean (ps : list Q) (m : Q) :
  calcProgress ps = Some m → (m == arithmetic_mean ps)%Q.
Proof.
  destruct (calcProgress_cases ps) as [[_ ->]|[_ ->]]; [done|].
  intros [= <-]. unfold arithmetic_mean. by rewrite sumProgress_foldr.
Qed.

Lemma run_snoc (evs : list event) (e : event) :
  run (evs ++ [e]) = step (run evs) e.
Proof. unfold run. by rewrite fold_left_app. Qed.

Lemma reported_setProgress (ps : list Q) (log : list (option Q)) :
  reported (setProgress {| fileProgressables := ps; progressMeter := log |})
  = calcProgress ps.
Proof. unfold reported, setProgress. simpl. by rewrite last_snoc. Qed.

(** Whatever has happened, the sink shows the aggregate of the current
    task list, and it has been given a value as soon as a task exists. *)
Lemma reported_invariant (evs : list event) :
  reported (run evs) = calcProgress (fileProgressables (run evs)).
Proof.
  induction evs as [|e evs IH] using rev_ind; [done|].
  rewrite run_snoc. destruct e as [p0|i q]; simpl.
  - unfold fetchData. by rewrite reported_setProgress.
  - unfold onProgress. case_match; [|done]. by rewrite reported_setProgress.
Qed.

Lemma mean_with_zero_le (ps : list Q) :
  ps ≠ [] → Forall (fun p => (0 <= p)%Q) ps →
  (sumProgress (ps ++ [0%Q]) / inject_Z (Z.of_nat (length (ps ++ [0%Q])))
   <= sumProgress ps / inject_Z (Z.of_nat (length ps)))%Q.
Proof.
  intros Hne Hpos.
  assert (Hlen : (0 < length ps)%nat) by (destruct ps; [done | simpl; lia]).
  pose proof (sumProgress_nonneg ps Hpos) as Hs.
  rewrite sumProgress_snoc, length_app. simpl.
  set (s := sumProgress ps) in *. set (n := length ps) in *.
  assert (Hn : (0 < inject_Z (Z.of_nat n))%Q).
  { replace 0%Q with (inject_Z 0) by reflexivity. rewrite <- Zlt_Qlt. lia. }
  assert (Hn1 : (0 < inject_Z (Z.of_nat (n + 1)))%Q).
  { replace 0%Q with (inject_Z 0) by reflexivity. rewrite <- Zlt_Qlt. lia. }
  assert (Hle : (inject_Z (Z.of_nat n) <= inject_Z (Z.of_nat (n + 1)))%Q).
  { rewrite <- Zle_Qle. lia. }
  set (a := inject_Z (Z.of_nat n)) in *. set (b := inject_Z (Z.of_nat (n + 1))) in *.
  assert (Ha : ¬ (a == 0)%Q).
  { intros E. rewrite E in Hn. by apply Qlt_irrefl in Hn. }
  assert (Hq : (0 <= s / a)%Q).
  { apply Qle_shift_div_l; [done|]. by rewrite Qmult_0_l. }
  apply Qle_shift_div_r; [done|].
  apply Qle_trans with (a * (s / a))%Q.
  - rewrite Qmult_div_r by done. rewrite Qplus_0_r. apply Qle_refl.
  - rewrite (Qmult_comm (s / a) b). by apply Qmult_le_compat_r.
Qed.

End DataFetcherFacts.

(** *** The fetcher in rounded arithmetic *)

Section NumericFetcherFacts.

Context {N : Type} `{Number N}.




End NumericFetcherFacts.





(** The same on doubles: after the downloads at 0, 0.5 and 0, one more at
    0 lowers the value shown. *)
Example double_aggregate_after_a_new_task :
  let f := NumericFetcher.run
             [NumericFetcher.Fetch (num_zero : PrimFloat.float);
              NumericFetcher.Fetch half;
              NumericFetcher.Fetch num_zero] in
  ∃ a b, NumericFetcher.reported f = Some a
         ∧ NumericFetcher.reported (NumericFetcher.fetchData num_zero f) = Some b
         ∧ num_le b a
         ∧ NumericFetcher.reported (NumericFetcher.new (N := PrimFloat.float)) = None.
Proof.
  cbn zeta. eexists _, _.
  split; [vm_compute; reflexivity|]. split; [vm_compute; reflexivity|].
  split; vm_compute; reflexivity.
Qed.

(** The same on doubles for every list of up to four tasks whose
    fractions are among 0, 0.1, 1/3, 0.5, 0.7 and 1: one more task at 0
    never raises the value shown. *)
Example double_aggregate_on_sampled_fractions :
  let tenth (k : nat) : PrimFloat.float := PrimFloat.div (num_ofNat k) (num_ofNat 10) in
  let grid := [num_zero; tenth 1; PrimFloat.div (num_ofNat 1) (num_ofNat 3);
               half; tenth 7; num_ofNat 1] in
  let extend (ls : list (list PrimFloat.float)) :=
    l ← ls; (fun x => x :: l) <$> grid in
  let lists := extend [[]] ++ extend (extend [[]]) ++ extend (extend (extend [[]]))
               ++ extend (extend (extend (extend [[]]))) in
  length lists = 1554%nat
  ∧ forallb (fun ps =>
       let f := NumericFetcher.run (NumericFetcher.Fetch <$> ps) in
       match NumericFetcher.reported f,
             NumericFetcher.reported (NumericFetcher.fetchData num_zero f) with
       | Some a, Some b => PrimFloat.leb b a
       | _, _ => false
       end) lists = true.
Proof. cbn zeta. split; vm_compute; reflexivity. Qed.

(** C10. [calcProgress] divides the sum of the fractions by the length of
    the task list, and every report is made with at least one task
    registered: whatever events occur, each one either reports nothing
    (a progress event of a download that is not registered) or reports the
    quotient of the sum by a positive length; no report to the sink is the
    undefined 0/0, and the first report of a fresh fetcher comes after its
    first task is pushed. *)
Theorem report_is_well_defined (evs : list DataFetcher.event) (e : DataFetcher.event) :
  let f := DataFetcher.run evs in
  let f' := DataFetcher.step f e in
  let ps' := DataFetcher.fileProgressables f' in
  (DataFetcher.progressMeter f' = DataFetcher.progressMeter f
   ∨ (0 < length ps')%nat
     ∧ DataFetcher.progressMeter f'
       = DataFetcher.progressMeter f
         ++ [Some (DataFetcher.sumProgress ps' / inject_Z (Z.of_nat (length ps')))%Q])
  ∧ Forall (fun r => r ≠ None) (DataFetcher.progressMeter f')
  ∧ DataFetcher.progressMeter DataFetcher.new = []
  ∧ ∀ p0, DataFetcher.progressMeter (DataFetcher.fetchData p0 DataFetcher.new)
          = [Some (DataFetcher.sumProgress [p0] / 1)%Q].
Proof.
  assert (Hstep : ∀ g e0,
    DataFetcher.progressMeter (DataFetcher.step g e0) = DataFetcher.progressMeter g
    ∨ (0 < length (DataFetcher.fileProgressables (DataFetcher.step g e0)))%nat
      ∧ DataFetcher.progressMeter (DataFetcher.step g e0)
        = DataFetcher.progressMeter g
          ++ [Some (DataFetcher.sumProgress (DataFetcher.fileProgressables (DataFetcher.step g e0))
                    / inject_Z (Z.of_nat (length (DataFetcher.fileProgressables (DataFetcher.step g e0)))))%Q]).
  { intros g [p0|i q]; simpl.
    - right. unfold DataFetcher.fetchData, DataFetcher.setProgress. simpl.
      destruct (calcProgress_cases (DataFetcher.fileProgressables g ++ [p0])) as [[E _]|[_ ->]].
      { by destruct (DataFetcher.fileProgressables g). }
      split; [rewrite length_app; simpl; lia | done].
    - unfold DataFetcher.onProgress. case_match eqn:Hi; [right|by left].
      apply Nat.ltb_lt in Hi.
      unfold DataFetcher.setProgress. simpl.
      destruct (calcProgress_cases (<[i:=q]> (DataFetcher.fileProgressables g))) as [[E _]|[_ ->]].
      { apply (f_equal length) in E. rewrite length_insert in E. simpl in E. lia. }
      split; [rewrite length_insert; lia | done]. }
  assert (Hall : ∀ l, Forall (fun r : option Q => r ≠ None) (DataFetcher.progressMeter (DataFetcher.run l))).
  { induction l as [|x l IH] using rev_ind; [constructor|].
    rewrite run_snoc. destruct (Hstep (DataFetcher.run l) x) as [->|[_ ->]]; [done|].
    apply Forall_app. split; [done|]. by repeat constructor. }
  intros f f' ps'. split; [apply Hstep|].
  split; [|split; [done|done]].
  subst f' f. rewrite <- run_snoc. apply Hall.
Qed.

(** ** Arrays with holes *)

Section JSArrayFacts.

Context {A : Type}.
Implicit Types (l : list (option A)) (v : A).

Lemma get_nil (i : nat) : JS.get (@nil (option A)) i = None.
Proof. done. Qed.

Lemma get_ge l i : (length l <= i)%nat → JS.get l i = None.
Proof. intros H. unfold JS.get. by rewrite lookup_ge_None_2. Qed.

Lemma get_set_eq l i v : JS.get (JS.set l i v) i = Some v.
Proof.
  unfold JS.get, JS.set. destruct (i <? length l)%nat eqn:Hi.
  - apply Nat.ltb_lt in Hi. by rewrite list_lookup_insert_eq.
  - apply Nat.ltb_ge in Hi.
    rewrite lookup_app_r by done.
    rewrite lookup_app_r by (rewrite length_replicate; lia).
    rewrite length_replicate. by replace (i - length l - (i - length l))%nat with 0%nat by lia.
Qed.

Lemma get_set_ne l i j v : i ≠ j → JS.get (JS.set l i v) j = JS.get l j.
Proof.
  intros Hne. unfold JS.get, JS.set. destruct (i <? length l)%nat eqn:Hi.
  - by rewrite list_lookup_insert_ne.
  - apply Nat.ltb_ge in Hi.
    destruct (decide (j < length l)%nat) as [Hj|Hj].
    + by rewrite lookup_app_l.
    + rewrite (lookup_ge_None_2 l j) by lia.
      rewrite lookup_app_r by lia.
      destruct (decide (j - length l < i - length l)%nat) as [Hlt|Hge].
      * rewrite lookup_app_l by (rewrite length_replicate; lia).
        by rewrite lookup_replicate_2.
      * rewrite lookup_app_r by (rewrite length_replicate; lia).
        rewrite length_replicate.
        rewrite lookup_ge_None_2; [done | simpl; lia].
Qed.

End JSArrayFacts.

(** ** The loader monad *)

Lemma bind_run {A B} (m : M A) (k : A → M B) (s : store) :
  (m ≫= k) s
  = match m s with
    | (Ok a, s1, evs1) => let '(r, s2, evs2) := k a s1 in (r, s2, evs1 ++ evs2)
    | (Throw e, s1, evs1) => (Throw e, s1, evs1)
    end.
Proof.
  unfold mbind, M_bind, bind. destruct (m s) as [[[a|e] s1] evs1]; [|done].
  by destruct (k a s1) as [[r s2] evs2].
Qed.

Lemma lookups_app (evs1 evs2 : list event) :
  lookups (evs1 ++ evs2) = lookups evs1 ++ lookups evs2.
Proof. apply omap_app. Qed.

Lemma silent_app (evs1 evs2 : list event) :
  silent (evs1 ++ evs2) = silent evs1 ++ silent evs2.
Proof. apply List.filter_app. Qed.

(** ** The model loop *)

Section ModelLoop.

Context (D : Decoders).

(** One turn of the loop. *)
Lemma resolveModels_cons (i : nat) (m : MSB.Model) (rest : list MSB.Model)
    (flver : list (option FLVER.FLVER)) (s : store) :
  resolveModels D i (m :: rest) flver s
  = if (MSB.type m =? 0)%Z then
      match decodeModel D (resourceSystem s !! MSB.flverPath m) with
      | Ok g =>
          let '(r, s2, evs2) :=
            resolveModels D (S i) rest
              (if (0 <? length (FLVER.batches g))%nat then JS.set flver i g else flver) s in
          (r, s2, Lookup (MSB.flverPath m) :: evs2)
      | Throw e => (Throw e, s, [Lookup (MSB.flverPath m)])
      end
    else resolveModels D (S i) rest flver s.
Proof.
  simpl. destruct (MSB.type m =? 0)%Z; [|done].
  rewrite bind_run. unfold lookupFile at 1, ResourceSystem.lookupFile, decodeModel.
  rewrite bind_run. unfold lift at 1.
  destruct (DCX_decompressBuffer D _) as [d|e]; [|done].
  rewrite bind_run. unfold lift at 1.
  destruct (FLVER_parse D d) as [g|e]; [|done].
  by destruct (resolveModels D (S i) rest _ s) as [[r s2] evs2].
Qed.

Lemma resolveModels_outcome (rest : list MSB.Model) :
  ∀ i flver s, is_Ok (outcome (resolveModels D i rest flver s)) = forallb (decodes D s) rest.
Proof.
  induction rest as [|m rest IH]; intros i flver s; [done|].
  rewrite resolveModels_cons. simpl. unfold decodes at 1.
  destruct (MSB.type m =? 0)%Z; simpl; [|apply IH].
  destruct (decodeModel D _) as [g|e]; simpl; [|done].
  rewrite <- (IH (S i) (if (0 <? length (FLVER.batches g))%nat then JS.set flver i g else flver) s).
  by destruct (resolveModels D (S i) rest _ s) as [[r s2] evs2].
Qed.

Lemma resolveModels_ok (rest : list MSB.Model) :
  ∀ i flver s slots s' evs,
    resolveModels D i rest flver s = (Ok slots, s', evs) →
    s' = s
    ∧ evs = Lookup <$> modelLookups rest
    ∧ (∀ j, (j < i)%nat → JS.get slots j = JS.get flver j)
    ∧ (∀ j, (i + length rest <= j)%nat → JS.get slots j = JS.get flver j)
    ∧ (∀ k m, rest !! k = Some m →
         JS.get slots (i + k)
         = match slotOf D s m with Some g => Some g | None => JS.get flver (i + k) end).
Proof.
  induction rest as [|m rest IH]; intros i flver s slots s' evs.
  - intros [= <- <- <-]. by repeat split.
  - rewrite resolveModels_cons. unfold modelLookups. simpl.
    destruct (MSB.type m =? 0)%Z eqn:Hty.
    + destruct (decodeModel D _) as [g|e] eqn:Hdec; [|done].
      destruct (resolveModels D (S i) rest _ s) as [[r s2] evs2] eqn:Hrun.
      intros [= -> <- <-].
      apply IH in Hrun as (-> & -> & Hlt & Hge & Hin).
      split; [done|]. split; [done|].
      assert (Hset : ∀ j, j ≠ i →
        JS.get (if (0 <? length (FLVER.batches g))%nat then JS.set flver i g else flver) j
        = JS.get flver j).
      { intros j Hj. destruct (0 <? length (FLVER.batches g))%nat; [|done].
        by apply get_set_ne. }
      split; [intros j Hj; rewrite Hlt by lia; apply Hset; lia|].
      split; [intros j Hj; rewrite Hge by (simpl in Hj; lia); apply Hset; simpl in Hj; lia|].
      intros [|k] m' Hk; simpl in Hk.
      * injection Hk as <-. rewrite Nat.add_0_r, Hlt by lia.
        unfold slotOf. rewrite Hty, Hdec.
        destruct (0 <? length (FLVER.batches g))%nat; [apply get_set_eq | ]. done.
      * replace (i + S k)%nat with (S i + k)%nat by lia.
        rewrite (Hin k m' Hk). destruct (slotOf D s m'); [done|]. apply Hset. lia.
    + intros Hrun. apply IH in Hrun as (-> & -> & Hlt & Hge & Hin).
      split; [done|]. split; [done|].
      split; [intros j Hj; apply Hlt; lia|].
      split; [intros j Hj; apply Hge; simpl in Hj; lia|].
      intros [|k] m' Hk; simpl in Hk.
      * injection Hk as <-. rewrite Nat.add_0_r, Hlt by lia.
        unfold slotOf. by rewrite Hty.
      * replace (i + S k)%nat with (S i + k)%nat by lia. by apply Hin.
Qed.

End ModelLoop.

(** ** Texture loading *)

Section Textures.

Context (D : Decoders).

Lemma loadTextureTPFDCX_run (baseName : string) (s : store) :
  loadTextureTPFDCX D baseName s
  = match decodeTextures D (resourceSystem s !! (baseName +:+ ".tpf.dcx")) with
    | Ok tpf => (Ok tt, registered (TPF.textures tpf) s, [Lookup (baseName +:+ ".tpf.dcx")])
    | Throw e => (Throw e, s, [Lookup (baseName +:+ ".tpf.dcx")])
    end.
Proof.
  unfold loadTextureTPFDCX, decodeTextures.
  rewrite bind_run. unfold lookupFile at 1, ResourceSystem.lookupFile.
  rewrite bind_run. unfold lift at 1.
  destruct (DCX_decompressBuffer D _) as [d|e]; [|done].
  rewrite bind_run. unfold lift at 1.
  by destruct (TPF_parse D d) as [tpf|e].
Qed.

(** One record of a split bank: the three assertions, in the order the
    loop makes them, and the registration. *)
Lemma loadRecord_run (r : BHD.FileRecord) (s : store) :
  loadRecord D r s
  = if JS.endsWith ".tpf.dcx" (BHD.name r) then
      match decodeTextures D (Some (BHD.buffer r)) with
      | Ok tpf =>
          match TPF.textures tpf with
          | [t0] =>
              if String.eqb (key1 (BHD.name r)) (JS.toLowerCase (TPF.name t0))
              then (Ok tt, registered [t0] s, [])
              else (Throw AssertionError, s, [])
          | _ => (Throw AssertionError, s, [])
          end
      | Throw e => (Throw e, s, [])
      end
    else (Throw AssertionError, s, []).
Proof.
  unfold loadRecord, decodeTextures.
  rewrite bind_run. destruct (JS.endsWith _ _); [|done]. simpl.
  rewrite bind_run. unfold lift at 1.
  destruct (DCX_decompressBuffer D _) as [d|e]; [|done].
  rewrite bind_run. unfold lift at 1.
  destruct (TPF_parse D d) as [tpf|e]; [|done].
  rewrite bind_run.
  destruct (TPF.textures tpf) as [|t0 [|t1 ts]]; [done| |done]. simpl.
  rewrite bind_run. by destruct (String.eqb _ _).
Qed.

Lemma loadRecords_cons (r : BHD.FileRecord) (rs : list BHD.FileRecord) (s : store) :
  loadRecords D (r :: rs) s
  = match loadRecord D r s with
    | (Ok _, s1, evs1) => let '(x, s2, evs2) := loadRecords D rs s1 in (x, s2, evs1 ++ evs2)
    | (Throw e, s1, evs1) => (Throw e, s1, evs1)
    end.
Proof. simpl. by rewrite bind_run. Qed.

(** Records are loaded without any event, whatever the outcome. *)
Lemma loadRecords_trace (rs : list BHD.FileRecord) :
  ∀ s, trace (loadRecords D rs s) = [].
Proof.
  induction rs as [|r rs IH]; intros s; [done|].
  rewrite loadRecords_cons, loadRecord_run.
  destruct (JS.endsWith _ _); [|done].
  destruct (decodeTextures D _) as [tpf|e]; [|done].
  destruct (TPF.textures tpf) as [|t0 [|t1 ts]]; [done| |done].
  destruct (String.eqb _ _); [|done].
  specialize (IH (registered [t0] s)).
  by destruct (loadRecords D rs _) as [[x s2] evs2].
Qed.

Lemma loadTextureBHD_run (baseName : string) (s : store) :
  loadTextureBHD D baseName s
  = match BHD_parse D (resourceSystem s !! (baseName +:+ ".tpfbhd"))
                      (resourceSystem s !! (baseName +:+ ".tpfbdt")) with
    | Ok bhd =>
        (outcome (loadRecords D (BHD.fileRecords bhd) s),
         final (loadRecords D (BHD.fileRecords bhd) s),
         [Lookup (baseName +:+ ".tpfbhd"); Lookup (baseName +:+ ".tpfbdt")])
    | Throw e => (Throw e, s, [Lookup (baseName +:+ ".tpfbhd"); Lookup (baseName +:+ ".tpfbdt")])
    end.
Proof.
  unfold loadTextureBHD.
  rewrite bind_run. unfold lookupFile at 1, ResourceSystem.lookupFile.
  rewrite bind_run. unfold lookupFile at 1, ResourceSystem.lookupFile.
  rewrite bind_run. unfold lift at 1.
  destruct (BHD_parse D _ _) as [bhd|e]; [|done].
  pose proof (loadRecords_trace (BHD.fileRecords bhd) s) as Ht.
  destruct (loadRecords D _ s) as [[x s2] evs2]. simpl in *. by subst.
Qed.

Lemma loadTextureBHD_trace (baseName : string) (s : store) :
  trace (loadTextureBHD D baseName s)
  = [Lookup (baseName +:+ ".tpfbhd"); Lookup (baseName +:+ ".tpfbdt")].
Proof. rewrite loadTextureBHD_run. by destruct (BHD_parse D _ _). Qed.

End Textures.

(** ** The model holder *)

Lemma upload_get (rest : list (option FLVER.FLVER)) :
  ∀ i acc j,
    JS.get (ModelHolder.upload i rest acc) j
    = if decide (i <= j < i + length rest)%nat
      then match JS.get rest (j - i) with
           | Some f => Some {| flver := f |}
           | None => JS.get acc j
           end
      else JS.get acc j.
Proof.
  induction rest as [|x rest IH]; intros i acc j.
  - simpl. case_decide; [lia | done].
  - assert (Hstep : ModelHolder.upload i (x :: rest) acc
                    = ModelHolder.upload (S i) rest
                        (match x with Some f => JS.set acc i {| flver := f |} | None => acc end))
      by (by destruct x).
    rewrite Hstep, IH. clear Hstep. simpl length.
    destruct (decide (j = i)) as [->|Hne].
    + rewrite decide_False by lia. rewrite decide_True by lia.
      rewrite Nat.sub_diag. destruct x as [f|]; [apply get_set_eq | done].
    + assert (Hacc : JS.get (match x with Some f => JS.set acc i {| flver := f |} | None => acc end) j
                     = JS.get acc j)
        by (destruct x; [by apply get_set_ne | done]).
      rewrite Hacc.
      destruct (decide (S i <= j < S i + length rest)%nat) as [H1|H1].
      * rewrite decide_True by lia.
        by replace (j - i)%nat with (S (j - S i)) by lia.
      * by rewrite decide_False by lia.
Qed.

(** The holder keeps the index of every model. *)
Lemma ModelHolder_new_get (flver : list (option FLVER.FLVER)) (j : nat) :
  JS.get (ModelHolder.flverData (ModelHolder.new flver)) j
  = (fun f => {| flver := f |}) <$> JS.get flver j.
Proof.
  unfold ModelHolder.new. simpl. rewrite upload_get.
  case_decide as H.
  - rewrite Nat.sub_0_r. by destruct (JS.get flver j).
  - by rewrite (get_ge flver j) by lia.
Qed.

(** ** The whole load *)

Section Scene.

Context (D : Decoders).

Lemma assemble_run (id : string) (s : store) :
  assemble D id s
  = match MSB_parse D (resourceSystem s !! msbPath id) id with
    | Ok msb =>
        match BND3_parse D (resourceSystem s !! "mtd/Mtd.mtdbnd") with
        | Ok mtdBnd =>
            let '(r, s2, evs2) := build D id msb s in
            (r, s2, Lookup (msbPath id) :: Lookup "mtd/Mtd.mtdbnd" :: ConsoleLog mtdBnd :: evs2)
        | Throw e => (Throw e, s, [Lookup (msbPath id); Lookup "mtd/Mtd.mtdbnd"])
        end
    | Throw e => (Throw e, s, [Lookup (msbPath id)])
    end.
Proof.
  unfold assemble.
  rewrite bind_run. unfold lookupFile at 1, ResourceSystem.lookupFile.
  rewrite bind_run. unfold lift at 1.
  destruct (MSB_parse D _ id) as [msb|e]; [|done].
  rewrite bind_run. unfold lookupFile at 1, ResourceSystem.lookupFile.
  rewrite bind_run. unfold lift at 1.
  destruct (BND3_parse D _) as [mtdBnd|e]; [|done].
  rewrite bind_run. unfold emit at 1.
  fold (build D id msb).
  by destruct (build D id msb s) as [[r s2] evs2].
Qed.

(** A load that gets through [build] has decoded every model-kind entry,
    consulted the namespace for the models and then for the five texture
    containers, and returns the renderer made of the texture holder, the
    model holder and the placement table. *)
Lemma build_ok (id : string) (msb : MSB.t) (s s' : store) (r : DKSRenderer.t)
    (evs : list event) :
  build D id msb s = (Ok r, s', evs) →
  ∃ flver,
    resolveModels D 0 (MSB.models msb) [] s
    = (Ok flver, s, Lookup <$> modelLookups (MSB.models msb))
    ∧ evs = (Lookup <$> modelLookups (MSB.models msb)) ++ (Lookup <$> textureLookups id)
    ∧ r = DKSRenderer.addSceneRenderer
            {| msbTextureHolder := textureHolder s';
               msbModelHolder := ModelHolder.new flver;
               msb := msb |}
            (DKSRenderer.new (textureHolder s') (ModelHolder.new flver)).
Proof.
  unfold build. rewrite bind_run.
  destruct (resolveModels D 0 _ [] s) as [[[flver|e] s1] evs1] eqn:Hres; [|done].
  destruct (resolveModels_ok D _ _ _ _ _ _ _ Hres) as (-> & -> & _).
  repeat match goal with
  | |- context [loadTextureBHD D ?b ≫= _] =>
      rewrite (bind_run (loadTextureBHD D b));
      let H := fresh "Ht" in
      let s0 := fresh "t" in
      let x := fresh "x" in
      match goal with |- context [loadTextureBHD D b ?st] =>
        pose proof (loadTextureBHD_trace D b st) as H;
        destruct (loadTextureBHD D b st) as [[[x|?] s0] ?]; [|done];
        simpl in H; subst
      end
  end.
  rewrite bind_run, loadTextureTPFDCX_run.
  destruct (decodeTextures D _) as [tpf|e]; [|done].
  rewrite bind_run. unfold getTextureHolder at 1.
  intros [= <- <- <-]. exists flver. split; [done|]. split; [|done].
  done.
Qed.

End Scene.

(** ** The joint download *)

Section Download.

Context (D : Decoders) (net : Network).

Lemma fetchCRG1Arc_resume_run (archiveName : string) (s : store) :
  fetchCRG1Arc_resume D net archiveName s
  = match respond net (pathBase +:+ "/" +:+ archiveName) with
    | Some buffer =>
        match BYML_parse D buffer with
        | Ok crg1Arc => mountCRG1 crg1Arc s
        | Throw e => (Throw e, s, [])
        end
    | None => (Throw (FetchError (pathBase +:+ "/" +:+ archiveName)), s, [])
    end.
Proof.
  unfold fetchCRG1Arc_resume, await. rewrite bind_run.
  destruct (respond net _) as [buffer|]; [|done]. simpl.
  rewrite bind_run. unfold lift at 1.
  by destruct (BYML_parse D buffer).
Qed.

Lemma fetchLoose_resume_run (fileName : string) (s : store) :
  fetchLoose_resume net fileName s
  = match respond net (pathBase +:+ "/" +:+ fileName) with
    | Some buffer => mountFile fileName buffer s
    | None => (Throw (FetchError (pathBase +:+ "/" +:+ fileName)), s, [])
    end.
Proof.
  unfold fetchLoose_resume, await. rewrite bind_run.
  by destruct (respond net _) as [buffer|].
Qed.

(** Both downloads are started whatever becomes of them, and nothing else
    is observable of the joint download. *)
Lemma fetchAll_trace (arcName : string) (s : store) :
  trace (fetchAll D net arcName s)
  = [Fetch (pathBase +:+ "/" +:+ arcName); Fetch (pathBase +:+ "/" +:+ "mtd/Mtd.mtdbnd")].
Proof.
  unfold fetchAll, fetchCRG1Arc_start, fetchLoose_start.
  rewrite bind_run. unfold fetchData at 1.
  rewrite bind_run. unfold fetchData at 1.
  destruct (arcFirst net); rewrite bind_run.
  - rewrite fetchCRG1Arc_resume_run.
    destruct (respond net (pathBase +:+ "/" +:+ arcName)) as [b1|]; [|done].
    destruct (BYML_parse D b1) as [c|e]; [|done]. simpl.
    rewrite fetchLoose_resume_run.
    by destruct (respond net _).
  - rewrite fetchLoose_resume_run.
    destruct (respond net (pathBase +:+ "/" +:+ "mtd/Mtd.mtdbnd")) as [b2|]; [|done]. simpl.
    rewrite fetchCRG1Arc_resume_run.
    destruct (respond net _) as [b1|]; [|done].
    by destruct (BYML_parse D b1).
Qed.

(** A rejected download rejects the joint download. *)
Lemma fetchAll_rejected (arcName : string) (s : store) :
  respond net (pathBase +:+ "/" +:+ arcName) = None
  ∨ respond net (pathBase +:+ "/" +:+ "mtd/Mtd.mtdbnd") = None →
  is_Ok (outcome (fetchAll D net arcName s)) = false.
Proof.
  intros Hrej.
  unfold fetchAll, fetchCRG1Arc_start, fetchLoose_start.
  rewrite bind_run. unfold fetchData at 1.
  rewrite bind_run. unfold fetchData at 1.
  destruct (arcFirst net); rewrite bind_run.
  - rewrite fetchCRG1Arc_resume_run.
    destruct (respond net (pathBase +:+ "/" +:+ arcName)) as [b1|]; [|done].
    destruct (BYML_parse D b1) as [c|e]; [|done]. simpl.
    rewrite fetchLoose_resume_run.
    destruct (respond net _); [|done]. by destruct Hrej.
  - rewrite fetchLoose_resume_run.
    destruct (respond net (pathBase +:+ "/" +:+ "mtd/Mtd.mtdbnd")) as [b2|]; [|done]. simpl.
    rewrite fetchCRG1Arc_resume_run.
    destruct (respond net _) as [b1|]; [|done]. by destruct Hrej.
Qed.

Lemma createScene_run (id : string) (s : store) :
  createScene D net id s
  = match fetchAll D net (id +:+ "_arc.crg1") s with
    | (Ok _, s1, evs1) => let '(r, s2, evs2) := assemble D id s1 in (r, s2, evs1 ++ evs2)
    | (Throw e, s1, evs1) => (Throw e, s1, evs1)
    end.
Proof. unfold createScene. by rewrite bind_run. Qed.

End Download.

(** ** Claims about the load *)

(** C7. The two downloads of a load, the bulk archive and the material
    definitions, are both started before either is awaited, whatever their
    fate; when either of them is rejected the load is rejected: it returns
    no scene, and nothing was done besides starting the two downloads. *)
Theorem rejected_download_rejects_load (D : Decoders) (net : Network)
    (id : string) (s : store) :
  let arcPath := pathBase +:+ "/" +:+ (id +:+ "_arc.crg1") in
  let mtdPath := pathBase +:+ "/" +:+ "mtd/Mtd.mtdbnd" in
  let run := createScene D net id s in
  take 2 (trace run) = [Fetch arcPath; Fetch mtdPath]
  ∧ (respond net arcPath = None ∨ respond net mtdPath = None →
     (∃ e, outcome run = Throw e) ∧ trace run = [Fetch arcPath; Fetch mtdPath]).
Proof.
  intros arcPath mtdPath run. subst run. rewrite createScene_run.
  pose proof (fetchAll_trace D net (id +:+ "_arc.crg1") s) as Ht.
  pose proof (fetchAll_rejected D net (id +:+ "_arc.crg1") s) as Hrej.
  destruct (fetchAll D net _ s) as [[[[]|e] s1] evs1]; simpl in Ht, Hrej; subst evs1.
  - split.
    + by destruct (assemble D id s1) as [[r s2] evs2].
    + intros H. by apply Hrej in H.
  - split; [done|]. intros _. split; [by exists e | done].
Qed.

Lemma rejected_download_rejects_load_witness :
  let run := createScene (Sample.decoders Sample.arc)
               (Sample.netWithout "dks/mtd/Mtd.mtdbnd") "m10_01_00_00" fresh in
  (∃ e, outcome run = Throw e)
  ∧ trace run = [Fetch "dks/m10_01_00_00_arc.crg1"; Fetch "dks/mtd/Mtd.mtdbnd"].
Proof.
  apply (rejected_download_rejects_load (Sample.decoders Sample.arc)
           (Sample.netWithout "dks/mtd/Mtd.mtdbnd") "m10_01_00_00" fresh).
  right. reflexivity.
Defined.

(** C9. The loose texture container is registered as it is decoded and
    without any validation. The load step looks up [baseName.tpf.dcx]
    once and touches nothing but the texture holder; it fails only where
    the decompressor or the decoder throws, with their exception, never
    with an assertion of its own; and whenever the container decompresses
    and decodes, the step succeeds and the texture holder afterwards is
    the holder before followed by every texture of the container, in the
    container's order, whatever their number and their names. *)
Theorem loose_container_is_not_validated (D : Decoders) (baseName : string) (s : store) :
  let run := loadTextureTPFDCX D baseName s in
  trace run = [Lookup (baseName +:+ ".tpf.dcx")]
  ∧ resourceSystem (final run) = resourceSystem s
  ∧ dataFetcher (final run) = dataFetcher s
  ∧ (∀ e, outcome run = Throw e ↔
          decodeTextures D (resourceSystem s !! (baseName +:+ ".tpf.dcx")) = Throw e)
  ∧ (∀ e, outcome run = Throw e → textureHolder (final run) = textureHolder s)
  ∧ (∀ tpf, decodeTextures D (resourceSystem s !! (baseName +:+ ".tpf.dcx")) = Ok tpf →
       outcome run = Ok tt
       ∧ textureHolder (final run) = textureHolder s ++ TPF.textures tpf
       ∧ length (textureHolder (final run))
         = (length (textureHolder s) + length (TPF.textures tpf))%nat).
Proof.
  intros run. subst run. rewrite loadTextureTPFDCX_run.
  destruct (decodeTextures D _) as [tpf|e0]; unfold trace, final, outcome; simpl.
  - split; [done|]. split; [done|]. split; [done|].
    split; [by split|]. split; [done|].
    intros tpf' [= <-]. split; [done|]. split; [done|]. by rewrite length_app.
  - split; [done|]. split; [done|]. split; [done|].
    split; [intros e; split; by intros [= ->]|]. by split.
Qed.

Lemma loose_container_is_not_validated_witness :
  let D := Sample.decoders Sample.arc in
  let s := final (fetchAll D Sample.net "m10_01_00_00_arc.crg1" fresh) in
  let two := [{| TPF.name := "a"; TPF.data := [] |}; {| TPF.name := "b"; TPF.data := [] |}] in
  outcome (loadTextureTPFDCX D "/map/m10/m10_9999" s) = Ok tt
  ∧ textureHolder (final (loadTextureTPFDCX D "/map/m10/m10_9999" s)) = textureHolder s ++ two
  ∧ textureHolder (final (loadTextureTPFDCX D "/map/m10/m10_9999" s)) = two
  ∧ outcome (loadRecord D {| BHD.name := "m10_9999.tpf.dcx"; BHD.buffer := Sample.bytes "a,b" |} s)
    = Throw AssertionError.
Proof.
  intros D s two.
  destruct (loose_container_is_not_validated D "/map/m10/m10_9999" s)
    as (_ & _ & _ & _ & _ & H).
  destruct (H {| TPF.textures := two |} eq_refl) as (H1 & H2 & _).
  split; [exact H1|]. split; [exact H2|]. split; [rewrite H2; reflexivity|].
  vm_compute. reflexivity.
Defined.

(** The claim C1 as it is worded fails: a model-kind entry whose file is
    not in the namespace does not leave its slot empty, it fails the load.
    Here the placement table has the model-kind entry 0, its file
    [/model/m.flver.dcx] is not mounted, the lookup gives [undefined], the
    decompressor throws on it, and [createScene] is rejected. *)
Lemma absent_model_file_fails_load :
  let D := Sample.decoders Sample.arcNoModel in
  let s1 := final (fetchAll D Sample.net "m10_01_00_00_arc.crg1" fresh) in
  let run := createScene D Sample.net "m10_01_00_00" fresh in
  MSB_parse D (resourceSystem s1 !! msbPath "m10_01_00_00") "m10_01_00_00"
  = Ok {| MSB.models := [ {| MSB.type := 0; MSB.flverPath := "/model/m.flver.dcx" |};
                          {| MSB.type := 1; MSB.flverPath := "/model/P.flver.dcx" |} ] |}
  ∧ resourceSystem s1 !! "/model/m.flver.dcx" = None
  ∧ outcome run = Throw TypeError
  ∧ ¬ ∃ r, outcome run = Ok r.
Proof.
  split; [vm_compute; reflexivity|].
  split; [vm_compute; reflexivity|].
  assert (H : outcome (createScene (Sample.decoders Sample.arcNoModel) Sample.net
                         "m10_01_00_00" fresh) = Throw TypeError)
    by (vm_compute; reflexivity).
  split; [exact H|]. intros [r Hr]. rewrite H in Hr. discriminate.
Qed.

(** C1, amended. In every load that completes, with [msb] the decoded
    placement table, [s1] the store after the two mounts and [flver] the
    slot array that the model loop produces (from which the model holder
    is made, slot for slot): slot [i] is present, holding the geometry
    [g], if and only if entry [i] is model-kind ([type = 0]) and
    decompressing and decoding the result of looking up its path gives [g]
    with at least one batch. The loop does not test whether the file is
    present: the lookup result goes to the decompressor as it is, and the
    load completes only if every model-kind entry decompresses and
    decodes; so for a model-kind entry whose file is absent, a completed
    load means that the decompressor accepted the absent buffer. *)
Theorem model_slot_present_iff (D : Decoders) (net : Network) (id : string)
    (s : store) (r : DKSRenderer.t) :
  let s1 := final (fetchAll D net (id +:+ "_arc.crg1") s) in
  outcome (createScene D net id s) = Ok r →
  ∃ msb flver,
    MSB_parse D (resourceSystem s1 !! msbPath id) id = Ok msb
    ∧ outcome (resolveModels D 0 (MSB.models msb) [] s1) = Ok flver
    ∧ DKSRenderer.modelHolder r = ModelHolder.new flver
    ∧ (∀ i, JS.get (ModelHolder.flverData (DKSRenderer.modelHolder r)) i
            = (fun g => {| flver := g |}) <$> JS.get flver i)
    ∧ (∀ i g,
         JS.get flver i = Some g
         ↔ ∃ m, MSB.models msb !! i = Some m
                ∧ MSB.type m = 0%Z
                ∧ decodeModel D (resourceSystem s1 !! MSB.flverPath m) = Ok g
                ∧ (0 < length (FLVER.batches g))%nat)
    ∧ (∀ m, m ∈ MSB.models msb → MSB.type m = 0%Z →
         is_Ok (decodeModel D (resourceSystem s1 !! MSB.flverPath m)) = true
         ∧ (resourceSystem s1 !! MSB.flverPath m = None →
            is_Ok (DCX_decompressBuffer D None) = true)).
Proof.
  intros s1. subst s1. rewrite createScene_run.
  destruct (fetchAll D net _ s) as [[[[]|e] s1] evs1]; [|done].
  rewrite assemble_run. unfold final. cbn [fst snd].
  destruct (MSB_parse D _ id) as [msb|e]; [|done].
  destruct (BND3_parse D _) as [mtdBnd|e]; [|done].
  destruct (build D id msb s1) as [[r' s2] evs2] eqn:Hbuild.
  unfold outcome at 1. simpl. intros ->.
  apply build_ok in Hbuild as (flver & Hres & _ & ->).
  pose proof (resolveModels_outcome D (MSB.models msb) 0 [] s1) as Hall.
  rewrite Hres in Hall. simpl in Hall. symmetry in Hall.
  exists msb, flver. split; [done|]. split; [by rewrite Hres|].
  apply resolveModels_ok in Hres as (_ & _ & _ & Hge & Hin).
  split; [done|]. split.
  { intros i. cbn [DKSRenderer.modelHolder DKSRenderer.addSceneRenderer DKSRenderer.new].
    apply ModelHolder_new_get. }
  split.
  - intros i g.
    destruct (MSB.models msb !! i) as [m|] eqn:Hm.
    + specialize (Hin i m Hm). simpl in Hin. rewrite Hin. unfold slotOf.
      destruct (Z.eqb_spec (MSB.type m) 0) as [Hty|Hty].
      * destruct (decodeModel D (resourceSystem s1 !! MSB.flverPath m)) as [g'|e] eqn:Hdec.
        -- destruct (Nat.ltb_spec 0 (length (FLVER.batches g'))) as [Hb|Hb]; simpl.
           ++ split.
              ** intros [= ->]. by exists m.
              ** intros (m' & [= <-] & _ & Hg & _). rewrite Hdec in Hg. by injection Hg as ->.
           ++ split; [done|]. intros (m' & [= <-] & _ & Hg & Hb').
              rewrite Hdec in Hg. injection Hg as ->. lia.
        -- simpl. split; [done|]. intros (m' & [= <-] & _ & Hg & _). congruence.
      * simpl. split; [done|]. intros (m' & [= <-] & Hty' & _). done.
    + rewrite Hge by (apply lookup_ge_None in Hm; simpl; lia). simpl.
      split; [done|]. intros (m' & Hm' & _). done.
  - intros m Hm Hty.
    rewrite forallb_forall in Hall. apply list_elem_of_In in Hm.
    specialize (Hall m Hm). unfold decodes in Hall.
    apply Z.eqb_eq in Hty. rewrite Hty in Hall. simpl in Hall.
    split; [done|]. intros Habs. rewrite Habs in Hall. unfold decodeModel in Hall.
    by destruct (DCX_decompressBuffer D None).
Qed.

Lemma model_slot_present_iff_witness :
  let D := Sample.decoders Sample.arc in
  let s1 := final (fetchAll D Sample.net "m10_01_00_00_arc.crg1" fresh) in
  ∃ r, outcome (createScene D Sample.net "m10_01_00_00" fresh) = Ok r
    ∧ ∃ msb flver,
        MSB_parse D (resourceSystem s1 !! msbPath "m10_01_00_00") "m10_01_00_00" = Ok msb
        ∧ outcome (resolveModels D 0 (MSB.models msb) [] s1) = Ok flver
        ∧ DKSRenderer.modelHolder r = ModelHolder.new flver
        ∧ (∀ i g,
             JS.get flver i = Some g
             ↔ ∃ m, MSB.models msb !! i = Some m
                    ∧ MSB.type m = 0%Z
                    ∧ decodeModel D (resourceSystem s1 !! MSB.flverPath m) = Ok g
                    ∧ (0 < length (FLVER.batches g))%nat).
Proof.
  intros D s1. eexists. split.
  - vm_compute. reflexivity.
  - destruct (model_slot_present_iff D Sample.net "m10_01_00_00" fresh _ eq_refl)
      as (msb & flver & H1 & H2 & H3 & _ & H5 & _).
    exists msb, flver. split; [exact H1|]. split; [exact H2|]. split; [exact H3 | exact H5].
Defined.

(** ** The material-definition container *)

Section MaterialContainer.

Context (D : Decoders) (f : option ArrayBufferSlice → result BND3.t).

(** Nothing but [assemble] uses the block-name container decoder. *)
Lemma fetchAll_withBND3 (net : Network) (arcName : string) :
  fetchAll (withBND3 D f) net arcName = fetchAll D net arcName.
Proof. reflexivity. Qed.

Lemma build_withBND3 (id : string) (msb : MSB.t) :
  build (withBND3 D f) id msb = build D id msb.
Proof. reflexivity. Qed.

End MaterialContainer.

(** The claim C3 as it is worded fails: the decoded container is not
    handed to the renderer. Two loads of the same scene whose block-name
    decoders return different containers write different containers to the
    console and agree on everything else: the scene returned (the
    sub-scene renderer with its texture holder, model holder and placement
    table), the final store and all other events. *)
Lemma mtdBnd_is_not_forwarded :
  let D1 := Sample.decoders Sample.arc in
  let D2 := withBND3 D1 (fun _ => Ok {| BND3.files := [] |}) in
  let run1 := createScene D1 Sample.net "m10_01_00_00" fresh in
  let run2 := createScene D2 Sample.net "m10_01_00_00" fresh in
  In (ConsoleLog {| BND3.files := [("Mtd", Sample.bytes "?")] |}) (trace run1)
  ∧ In (ConsoleLog {| BND3.files := [] |}) (trace run2)
  ∧ is_Ok (outcome run1) = true
  ∧ outcome run2 = outcome run1
  ∧ final run2 = final run1
  ∧ silent (trace run2) = silent (trace run1).
Proof.
  split; [vm_compute; tauto|].
  split; [vm_compute; tauto|].
  split; [vm_compute; reflexivity|].
  split; [vm_compute; reflexivity|].
  split; vm_compute; reflexivity.
Qed.

(** C3, amended. The load decodes the mounted material-definition buffer
    ([mtd/Mtd.mtdbnd]) into a block-name container and writes it to the
    console; the container goes nowhere else. Replacing the block-name
    decoder by any other that succeeds on the same buffers changes neither
    whether the load completes, nor the final store, nor any event but the
    console output, nor the scene returned; and a load that completes has
    decoded the buffer and logged the result. *)
Theorem mtdBnd_is_only_logged (D : Decoders) (net : Network) (id : string)
    (s : store) (f : option ArrayBufferSlice → result BND3.t) :
  (∀ ob, is_Ok (f ob) = is_Ok (BND3_parse D ob)) →
  let s1 := final (fetchAll D net (id +:+ "_arc.crg1") s) in
  let run := createScene D net id s in
  let run' := createScene (withBND3 D f) net id s in
  is_Ok (outcome run') = is_Ok (outcome run)
  ∧ final run' = final run
  ∧ silent (trace run') = silent (trace run)
  ∧ ∀ r, outcome run = Ok r →
      outcome run' = Ok r
      ∧ ∃ mtdBnd, BND3_parse D (resourceSystem s1 !! "mtd/Mtd.mtdbnd") = Ok mtdBnd
                  ∧ In (ConsoleLog mtdBnd) (trace run).
Proof.
  intros Hf s1 run run'. subst s1 run run'.
  rewrite !createScene_run, fetchAll_withBND3.
  destruct (fetchAll D net _ s) as [[[[]|e] s1] evs1]; [|done].
  rewrite !assemble_run.
  unfold final, outcome, trace. cbn [fst snd BND3_parse MSB_parse withBND3].
  destruct (MSB_parse D _ id) as [msb|e]; [|done].
  specialize (Hf (resourceSystem s1 !! "mtd/Mtd.mtdbnd")).
  destruct (BND3_parse D _) as [mtdBnd|e], (f _) as [mtdBnd'|e']; try done.
  rewrite build_withBND3.
  destruct (build D id msb s1) as [[r s2] evs2]. cbn [fst snd].
  split; [done|]. split; [done|]. split.
  - by rewrite !silent_app.
  - intros r0 ->. split; [done|]. exists mtdBnd. split; [done|].
    apply in_app_iff. right. simpl. tauto.
Qed.

Lemma mtdBnd_is_only_logged_witness :
  let D := Sample.decoders Sample.arc in
  let f := fun ob : option ArrayBufferSlice =>
             Sample.defined (fun _ => Ok {| BND3.files := [] |}) ob in
  let run := createScene D Sample.net "m10_01_00_00" fresh in
  let run' := createScene (withBND3 D f) Sample.net "m10_01_00_00" fresh in
  is_Ok (outcome run') = is_Ok (outcome run)
  ∧ final run' = final run
  ∧ silent (trace run') = silent (trace run).
Proof.
  intros D f run run'.
  destruct (mtdBnd_is_only_logged D Sample.net "m10_01_00_00" fresh f) as (H1 & H2 & H3 & _).
  - intros [b|]; reflexivity.
  - split; [exact H1|]. split; [exact H2 | exact H3].
Defined.

(** ** Logical paths *)

Lemma append_assoc (a b c : string) : (a +:+ b) +:+ c = a +:+ (b +:+ c).
Proof.
  induction a as [|ch a IH]; [reflexivity|].
  change (String ch ((a +:+ b) +:+ c) = String ch (a +:+ (b +:+ c))).
  by rewrite IH.
Qed.

(** [slice(0, n)] gives a prefix of [min n length] code units. *)
Lemma slice0_prefix (n : nat) (id : string) :
  ∃ rest, id = JS.slice0 n id +:+ rest
          ∧ String.length (JS.slice0 n id) = Nat.min n (String.length id).
Proof.
  unfold JS.slice0. revert n. induction id as [|ch id IH]; intros [|n].
  - by exists "".
  - by exists "".
  - by exists (String ch id).
  - destruct (IH n) as (rest & Hrest & Hlen). exists rest. split.
    + change (String ch id = String ch (String.substring 0 n id +:+ rest)).
      by rewrite <- Hrest.
    + simpl. by rewrite Hlen.
Qed.

Lemma bankName_path (id suffix ext : string) :
  bankName id suffix +:+ ext
  = "/map/" +:+ JS.slice0 3 id +:+ "/" +:+ JS.slice0 3 id +:+ "_" +:+ suffix +:+ ext.
Proof. unfold bankName, mapKey. by rewrite !append_assoc. Qed.

(** The claim C4 as it is worded fails. The placement table is looked up
    in the namespace at [/map/MapStudio/<id>.msb], not under the base
    [dks] that prefixes the two download paths. And not every load issues
    the four bank lookups: one that aborts in the first bank stops
    there. *)
Lemma msb_lookup_has_no_base :
  let run := createScene (Sample.decoders Sample.arc) Sample.net "m10_01_00_00" fresh in
  let aborted := createScene (Sample.decoders Sample.arcMismatch) Sample.net
                   "m10_01_00_00" fresh in
  is_Ok (outcome run) = true
  ∧ pathBase = "dks"
  ∧ In "/map/MapStudio/m10_01_00_00.msb" (lookups (trace run))
  ∧ ¬ In (pathBase +:+ "/map/MapStudio/" +:+ "m10_01_00_00" +:+ ".msb") (lookups (trace run))
  ∧ outcome aborted = Throw AssertionError
  ∧ lookups (trace aborted)
    = [ "/map/MapStudio/m10_01_00_00.msb"; "mtd/Mtd.mtdbnd"; "/model/m.flver.dcx";
        "/map/m10/m10_0000.tpfbhd"; "/map/m10/m10_0000.tpfbdt" ].
Proof.
  split; [vm_compute; reflexivity|].
  split; [reflexivity|].
  split; [vm_compute; tauto|].
  split.
  - vm_compute. intros H.
    repeat (destruct H as [H|H]; [discriminate H|]). exact H.
  - split; vm_compute; reflexivity.
Qed.

(** C4, amended. With [g] the first 3 characters of the scene identifier
    (all of it when it is shorter), every load that completes does exactly
    this, in this order: it starts the downloads [dks/<id>_arc.crg1] and
    [dks/mtd/Mtd.mtdbnd]; it looks up the placement table at
    [/map/MapStudio/<id>.msb] (no base) and the material definitions at
    [mtd/Mtd.mtdbnd], and logs the latter; it looks up the file of every
    model-kind entry; it looks up [/map/<g>/<g>_000N.tpfbhd] and then
    [.tpfbdt] for N = 0, 1, 2, 3; and it looks up
    [/map/<g>/<g>_9999.tpf.dcx]. *)
Theorem load_paths (D : Decoders) (net : Network) (id : string)
    (s : store) (r : DKSRenderer.t) :
  let g := JS.slice0 3 id in
  let bank := fun n : string => "/map/" +:+ g +:+ "/" +:+ g +:+ "_" +:+ n in
  let s1 := final (fetchAll D net (id +:+ "_arc.crg1") s) in
  outcome (createScene D net id s) = Ok r →
  (∃ rest, id = g +:+ rest ∧ String.length g = Nat.min 3 (String.length id))
  ∧ ∃ msb mtdBnd,
      MSB_parse D (resourceSystem s1 !! ("/map/MapStudio/" +:+ id +:+ ".msb")) id = Ok msb
      ∧ trace (createScene D net id s)
        = [ Fetch ("dks/" +:+ id +:+ "_arc.crg1"); Fetch "dks/mtd/Mtd.mtdbnd";
            Lookup ("/map/MapStudio/" +:+ id +:+ ".msb"); Lookup "mtd/Mtd.mtdbnd";
            ConsoleLog mtdBnd ]
          ++ (Lookup <$> modelLookups (MSB.models msb))
          ++ [ Lookup (bank "0000.tpfbhd"); Lookup (bank "0000.tpfbdt");
               Lookup (bank "0001.tpfbhd"); Lookup (bank "0001.tpfbdt");
               Lookup (bank "0002.tpfbhd"); Lookup (bank "0002.tpfbdt");
               Lookup (bank "0003.tpfbhd"); Lookup (bank "0003.tpfbdt");
               Lookup (bank "9999.tpf.dcx") ].
Proof.
  intros g bank s1 Hok. subst s1. split; [apply slice0_prefix|].
  revert Hok. rewrite createScene_run.
  pose proof (fetchAll_trace D net (id +:+ "_arc.crg1") s) as Ht.
  destruct (fetchAll D net _ s) as [[[[]|e] s1] evs1]; [|done].
  unfold trace in Ht. simpl in Ht. subst evs1.
  rewrite assemble_run. unfold final, outcome, trace. cbn [fst snd].
  fold (msbPath id).
  destruct (MSB_parse D _ id) as [msb|e]; [|done].
  destruct (BND3_parse D _) as [mtdBnd|e]; [|done].
  destruct (build D id msb s1) as [[r' s2] evs2] eqn:Hbuild.
  cbn [fst snd]. intros ->.
  apply build_ok in Hbuild as (flver & _ & -> & _).
  exists msb, mtdBnd. split; [done|].
  unfold textureLookups. rewrite !bankName_path. reflexivity.
Qed.

Lemma load_paths_witness :
  let D := Sample.decoders Sample.arc in
  ∃ msb mtdBnd,
    trace (createScene D Sample.net "m10_01_00_00" fresh)
    = [ Fetch "dks/m10_01_00_00_arc.crg1"; Fetch "dks/mtd/Mtd.mtdbnd";
        Lookup "/map/MapStudio/m10_01_00_00.msb"; Lookup "mtd/Mtd.mtdbnd";
        ConsoleLog mtdBnd ]
      ++ (Lookup <$> modelLookups (MSB.models msb))
      ++ [ Lookup "/map/m10/m10_0000.tpfbhd"; Lookup "/map/m10/m10_0000.tpfbdt";
           Lookup "/map/m10/m10_0001.tpfbhd"; Lookup "/map/m10/m10_0001.tpfbdt";
           Lookup "/map/m10/m10_0002.tpfbhd"; Lookup "/map/m10/m10_0002.tpfbdt";
           Lookup "/map/m10/m10_0003.tpfbhd"; Lookup "/map/m10/m10_0003.tpfbdt";
           Lookup "/map/m10/m10_9999.tpf.dcx" ].
Proof.
  intros D.
  destruct (load_paths D Sample.net "m10_01_00_00" fresh
              (match outcome (createScene D Sample.net "m10_01_00_00" fresh) with
               | Ok r => r
               | Throw _ => DKSRenderer.new [] (ModelHolder.new [])
               end))
    as (_ & msb & mtdBnd & _ & Ht).
  - vm_compute. reflexivity.
  - exists msb, mtdBnd. exact Ht.
Defined.

(** ** Split texture banks *)

(** What the loop of [loadTextureBHD] does with one record, in full: it
    is registered exactly when its name ends with [.tpf.dcx], its payload
    decompresses and decodes to exactly one texture, and [key1] of its
    name is the lower-cased name of that texture; a failed assertion or
    decoder aborts, leaving the texture holder as it was. *)
Lemma loadRecord_ok_iff (D : Decoders) (r : BHD.FileRecord) (s : store) :
  outcome (loadRecord D r s) = Ok tt
  ↔ JS.endsWith ".tpf.dcx" (BHD.name r) = true
    ∧ ∃ t0, decodeTextures D (Some (BHD.buffer r)) = Ok {| TPF.textures := [t0] |}
            ∧ key1 (BHD.name r) = JS.toLowerCase (TPF.name t0)
            ∧ final (loadRecord D r s) = registered [t0] s.
Proof.
  rewrite loadRecord_run.
  destruct (JS.endsWith _ _); [|by split; [|intros [? _]]].
  destruct (decodeTextures D _) as [[ts]|e]; simpl.
  - destruct ts as [|t0 [|t1 ts]]; simpl.
    + split; [done|]. by intros (_ & t0 & [= ?] & _).
    + destruct (String.eqb_spec (key1 (BHD.name r)) (JS.toLowerCase (TPF.name t0))) as [Hk|Hk].
      * split; [|done]. intros _. split; [done|]. by exists t0.
      * split; [done|]. intros (_ & t & [= <-] & Hk' & _). done.
    + split; [done|]. by intros (_ & t & [= ?] & _).
  - split; [done|]. by intros (_ & t & [= ?] & _).
Qed.

(** A failing record stops the bank: the records after it are not
    touched, and the store is the one the failing record left. *)
Lemma loadRecords_abort (D : Decoders) (r : BHD.FileRecord) (rs : list BHD.FileRecord)
    (s : store) (e : error) :
  outcome (loadRecord D r s) = Throw e →
  loadRecords D (r :: rs) s = (Throw e, s, []).
Proof.
  rewrite loadRecords_cons, loadRecord_run.
  destruct (JS.endsWith _ _); [|by intros [= <-]].
  destruct (decodeTextures D _) as [[ts]|e']; [|by intros [= <-]].
  destruct ts as [|t0 [|t1 ts]]; simpl; [by intros [= <-]| |by intros [= <-]].
  destruct (String.eqb _ _); [done | by intros [= <-]].
Qed.

(** Where the two normalisations agree: on a name in which [.tpf.dcx]
    occurs at the end and nowhere before. *)

Lemma replaceFirst_eq (pat s : string) :
  JS.replaceFirst pat s
  = if JS.startsWith pat s then JS.drop (String.length pat) s
    else match s with
         | EmptyString => EmptyString
         | String a s' => String a (JS.replaceFirst pat s')
         end.
Proof. by destruct s. Qed.

Lemma append_empty_r (s : string) : s +:+ "" = s.
Proof.
  induction s as [|a s IH]; [done|].
  change (String a (s +:+ "") = String a s). by rewrite IH.
Qed.

Lemma startsWith_app (p s : string) : JS.startsWith p (p +:+ s) = true.
Proof.
  induction p as [|a p IH]; [done|].
  change (JS.startsWith (String a p) (String a (p +:+ s)) = true).
  simpl. by rewrite Ascii.eqb_refl.
Qed.

Lemma drop_app (p s : string) : JS.drop (String.length p) (p +:+ s) = s.
Proof. induction p as [|a p IH]; [done|]. exact IH. Qed.

Lemma length_app_string (a b : string) :
  String.length (a +:+ b) = (String.length a + String.length b)%nat.
Proof.
  induction a as [|c a IH]; [done|].
  change (S (String.length (a +:+ b)) = S (String.length a + String.length b)).
  by rewrite IH.
Qed.

Lemma substring_app (a b : string) : String.substring 0 (String.length a) (a +:+ b) = a.
Proof.
  induction a as [|c a IH]; [by destruct b|].
  change (String c (String.substring 0 (String.length a) (a +:+ b)) = String c a).
  by rewrite IH.
Qed.

Lemma replaceFirst_only_suffix (pat base : string) :
  (∀ k, (k < String.length base)%nat → JS.startsWith pat (JS.drop k (base +:+ pat)) = false) →
  JS.replaceFirst pat (base +:+ pat) = base.
Proof.
  induction base as [|c base IH]; intros Hno.
  - change ("" +:+ pat) with pat. rewrite replaceFirst_eq.
    pose proof (startsWith_app pat "") as Hs. pose proof (drop_app pat "") as Hd.
    rewrite append_empty_r in Hs, Hd. by rewrite Hs, Hd.
  - rewrite replaceFirst_eq.
    pose proof (Hno 0%nat ltac:(simpl; lia)) as H0.
    change (JS.drop 0 (String c base +:+ pat)) with (String c base +:+ pat) in H0.
    rewrite H0.
    change (String c (JS.replaceFirst pat (base +:+ pat)) = String c base).
    rewrite IH; [done|]. intros k Hk. apply (Hno (S k)). simpl. lia.
Qed.

Lemma stripSuffix_app (pat base : string) : stripSuffix pat (base +:+ pat) = base.
Proof.
  unfold stripSuffix, JS.endsWith. rewrite length_app_string.
  replace (String.length base + String.length pat - String.length pat)%nat
    with (String.length base) by lia.
  rewrite drop_app, String.eqb_refl, substring_app.
  by rewrite (proj2 (Nat.leb_le _ _)) by lia.
Qed.

(** The code and the specification compute the same key for such a
    name. *)
Lemma key1_agrees_on_single_suffix (name base : string) :
  JS.removeAll "\"%char name = base +:+ ".tpf.dcx" →
  (∀ k, (k < String.length base)%nat →
        JS.startsWith ".tpf.dcx" (JS.drop k (base +:+ ".tpf.dcx")) = false) →
  key1 name = JS.toLowerCase base ∧ spec_key1 name = JS.toLowerCase base.
Proof.
  intros Hname Hno. unfold key1, spec_key1. rewrite Hname.
  by rewrite replaceFirst_only_suffix, stripSuffix_app.
Qed.

(** C2: the code parts from the claim on the normalisation of the declared
    name. The record is named [x.tpf.dcxy.tpf.dcx] and its payload decodes
    to the single texture [x.tpf.dcxy]. The name ends with [.tpf.dcx];
    with the suffix stripped and lower-cased it is [x.tpf.dcxy], the
    lower-cased texture name, so the claim has the record registered. The
    code removes the first occurrence of [.tpf.dcx] instead of the suffix,
    compares [xy.tpf.dcx], and aborts on the assertion; the load of the
    whole bank, and of the scene, fails with it. Conversely the code
    registers the record over the texture [xy.tpf.dcx], which the claim
    has rejected. *)
Theorem key1_removes_first_occurrence :
  let D := Sample.decoders Sample.arc in
  let r := {| BHD.name := "x.tpf.dcxy.tpf.dcx"; BHD.buffer := Sample.bytes "x.tpf.dcxy" |} in
  let t0 := {| TPF.name := "x.tpf.dcxy"; TPF.data := [] |} in
  JS.endsWith ".tpf.dcx" (BHD.name r) = true
  ∧ decodeTextures D (Some (BHD.buffer r)) = Ok {| TPF.textures := [t0] |}
  ∧ spec_key1 (BHD.name r) = JS.toLowerCase (TPF.name t0)
  ∧ key1 (BHD.name r) = "xy.tpf.dcx"
  ∧ loadRecord D r fresh = (Throw AssertionError, fresh, [])
  ∧ (∀ rs, loadRecords D (r :: rs) fresh = (Throw AssertionError, fresh, []))
  ∧ (let r' := {| BHD.name := "x.tpf.dcxy.tpf.dcx"; BHD.buffer := Sample.bytes "xy.tpf.dcx" |} in
     spec_key1 (BHD.name r') ≠ "xy.tpf.dcx" ∧ outcome (loadRecord D r' fresh) = Ok tt)
  ∧ let run := createScene (Sample.decoders Sample.arcDoubled) Sample.net "m10_01_00_00" fresh in
    outcome run = Throw AssertionError
    ∧ lookups (trace run)
      = [ "/map/MapStudio/m10_01_00_00.msb"; "mtd/Mtd.mtdbnd"; "/model/m.flver.dcx";
          "/map/m10/m10_0000.tpfbhd"; "/map/m10/m10_0000.tpfbdt" ]
    ∧ textureHolder (final run) = [].
Proof.
  intros D r t0.
  assert (Hrun : loadRecord D r fresh = (Throw AssertionError, fresh, []))
    by (vm_compute; reflexivity).
  split; [vm_compute; reflexivity|].
  split; [vm_compute; reflexivity|].
  split; [vm_compute; reflexivity|].
  split; [vm_compute; reflexivity|].
  split; [exact Hrun|].
  split; [intros rs; apply loadRecords_abort; by rewrite Hrun|].
  split; [split; [by vm_compute | vm_compute; reflexivity]|].
  split; [vm_compute; reflexivity|].
  split; vm_compute; reflexivity.
Qed.

(** ** Teardown *)

Lemma destroyRenderers_seq (rest : list MSBRenderer) :
  ∀ k, DKSRenderer.destroyRenderers k rest = SceneRendererDestroy <$> seq k (length rest).
Proof.
  induction rest as [|x rest IH]; intros k; [done|].
  simpl. by rewrite IH.
Qed.

(** The model holder releases its models and nothing else. *)
Lemma destroyFrom_models (rest : list (option FLVERData)) :
  ∀ i, Forall (fun e => ∃ j, e = FLVERDataDestroy j
                             ∧ (i <= j)%nat ∧ is_Some (JS.get rest (j - i)))
              (ModelHolder.destroyFrom i rest).
Proof.
  induction rest as [|[d|] rest IH]; intros i; simpl; [constructor| |].
  - constructor.
    + exists i. rewrite Nat.sub_diag. by repeat split.
    + eapply Forall_impl; [apply (IH (S i))|].
      intros e (j & -> & Hj & Hs). exists j. split; [done|]. split; [lia|].
      by replace (j - i)%nat with (S (j - S i)) by lia.
  - eapply Forall_impl; [apply (IH (S i))|].
    intros e (j & -> & Hj & Hs). exists j. split; [done|]. split; [lia|].
    by replace (j - i)%nat with (S (j - S i)) by lia.
Qed.

Lemma registration_order (r : DKSRenderer.t) (rs : list MSBRenderer) :
  DKSRenderer.sceneRenderers
    (foldl (fun acc sr => DKSRenderer.addSceneRenderer sr acc) r rs)
  = DKSRenderer.sceneRenderers r ++ rs
  ∧ DKSRenderer.modelHolder
      (foldl (fun acc sr => DKSRenderer.addSceneRenderer sr acc) r rs)
    = DKSRenderer.modelHolder r.
Proof.
  revert r. induction rs as [|x rs IH]; intros r; simpl.
  - by rewrite app_nil_r.
  - destruct (IH (DKSRenderer.addSceneRenderer x r)) as [-> ->]. simpl.
    by rewrite <- app_assoc.
Qed.

(** The claim C8 as it is worded fails on what comes first: [destroy]
    begins with the teardown inherited from the base renderer, before any
    sub-scene renderer. *)
Lemma destroy_begins_with_super :
  let sr := {| msbTextureHolder := []; msbModelHolder := ModelHolder.new []; msb := {| MSB.models := [] |} |} in
  let r := DKSRenderer.addSceneRenderer sr (DKSRenderer.new [] (ModelHolder.new [])) in
  DKSRenderer.destroy r
  = [SuperDestroy; SceneRendererDestroy 0; TextureHolderDestroy; ModelHolderDestroy]
  ∧ head (DKSRenderer.destroy r) ≠ Some (SceneRendererDestroy 0)
  ∧ DKSRenderer.destroy r
    ≠ [SceneRendererDestroy 0; TextureHolderDestroy; ModelHolderDestroy].
Proof. by repeat split. Qed.

(** C8, amended. For a scene aggregate made over a texture holder and a model
    holder, to which the sub-scene renderers [rs] were added one after the
    other: [sceneRenderers] is [rs] in the order of registration, and
    [destroy] calls, after the teardown inherited from the base renderer,
    the [destroy] of every registered sub-scene renderer in that order,
    then that of the texture holder, then that of the model holder, which
    releases the models of its present slots and nothing else. *)
Theorem destroy_order (th : list TPF.Texture) (mh : ModelHolder.t)
    (rs : list MSBRenderer) :
  let r := foldl (fun acc sr => DKSRenderer.addSceneRenderer sr acc)
                 (DKSRenderer.new th mh) rs in
  DKSRenderer.sceneRenderers r = rs
  ∧ DKSRenderer.destroy r
    = [SuperDestroy]
      ++ (SceneRendererDestroy <$> seq 0 (length rs))
      ++ [TextureHolderDestroy; ModelHolderDestroy]
      ++ ModelHolder.destroy mh
  ∧ Forall (fun e => ∃ j, e = FLVERDataDestroy j
                          ∧ is_Some (JS.get (ModelHolder.flverData mh) j))
           (ModelHolder.destroy mh).
Proof.
  intros r. subst r.
  destruct (registration_order (DKSRenderer.new th mh) rs) as [Hrs Hmh].
  simpl in Hrs, Hmh. split; [done|]. split.
  - unfold DKSRenderer.destroy. by rewrite Hrs, Hmh, destroyRenderers_seq.
  - eapply Forall_impl; [apply (destroyFrom_models _ 0)|].
    intros e (j & -> & _ & Hs). exists j. by rewrite Nat.sub_0_r in Hs.
Qed.

(** ** The namespace *)

(** C6. Mounting [b1] and then [b2] at the same path [p] leaves the lookup
    of [p] equal to [b2], and the namespace is the one obtained by mounting
    [b2] alone: the later mount overwrites the earlier one, nothing of [b1]
    is kept, and no other path is affected. *)
Theorem mountFile_last_write_wins (rs : gmap string ArrayBufferSlice)
    (p : string) (b1 b2 : ArrayBufferSlice) :
  let rs2 := ResourceSystem.mountFile p b2 (ResourceSystem.mountFile p b1 rs) in
  ResourceSystem.lookupFile p rs2 = Some b2
  ∧ rs2 = ResourceSystem.mountFile p b2 rs
  ∧ ∀ q, q ≠ p → ResourceSystem.lookupFile q rs2 = ResourceSystem.lookupFile q rs.
Proof.
  unfold ResourceSystem.mountFile, ResourceSystem.lookupFile. cbn zeta.
  split; [apply lookup_insert_eq|].
  split; [apply insert_insert_eq|].
  intros q Hq. by rewrite !lookup_insert_ne.
Qed.

(** * Further properties of the code *)

(** ** Mounting an archive *)

Lemma mountEntries_app (l1 l2 : list (string * ArrayBufferSlice))
    (rs : gmap string ArrayBufferSlice) :
  ResourceSystem.mountEntries (l1 ++ l2) rs
  = ResourceSystem.mountEntries l2 (ResourceSystem.mountEntries l1 rs).
Proof.
  revert rs. induction l1 as [|[k v] l1 IH]; intros rs; [done|]. simpl. apply IH.
Qed.

Lemma mountEntries_other (kvs : list (string * ArrayBufferSlice)) (p : string) :
  ∀ rs : gmap string ArrayBufferSlice,
    p ∉ kvs.*1 → ResourceSystem.mountEntries kvs rs !! p = rs !! p.
Proof.
  induction kvs as [|[k v] kvs IH]; intros rs Hp; [done|].
  rewrite fmap_cons in Hp. apply not_elem_of_cons in Hp as [Hk Hp]. simpl in Hk.
  simpl. rewrite IH by done. unfold ResourceSystem.mountFile.
  by rewrite lookup_insert_ne.
Qed.

Lemma mountEntries_union (kvs : list (string * ArrayBufferSlice)) :
  ∀ rs : gmap string ArrayBufferSlice,
    ResourceSystem.mountEntries kvs rs = list_to_map (reverse kvs) ∪ rs.
Proof.
  induction kvs as [|[k v] kvs IH]; intros rs.
  - simpl. by rewrite (left_id ∅ _).
  - simpl. rewrite IH, reverse_cons, list_to_map_app. simpl.
    rewrite <- (assoc_L _). f_equal. unfold ResourceSystem.mountFile.
    by rewrite <- insert_union_l, (left_id ∅ _).
Qed.

Lemma mountEntries_insert (kvs : list (string * ArrayBufferSlice)) (p : string)
    (b : ArrayBufferSlice) (rs : gmap string ArrayBufferSlice) :
  p ∉ kvs.*1 →
  ResourceSystem.mountEntries kvs (<[p := b]> rs)
  = <[p := b]> (ResourceSystem.mountEntries kvs rs).
Proof.
  intros Hp. rewrite !mountEntries_union. symmetry. apply insert_union_r.
  apply not_elem_of_list_to_map_1. by rewrite fmap_reverse, elem_of_reverse.
Qed.

Lemma mountEntries_agree (kvs : list (string * ArrayBufferSlice)) (p : string) :
  ∀ rs rs' : gmap string ArrayBufferSlice,
    rs !! p = rs' !! p →
    ResourceSystem.mountEntries kvs rs !! p = ResourceSystem.mountEntries kvs rs' !! p.
Proof.
  induction kvs as [|[k v] kvs IH]; intros rs rs' H; [done|].
  simpl. apply IH. unfold ResourceSystem.mountFile.
  destruct (decide (k = p)) as [->|Hne].
  - by rewrite !lookup_insert_eq.
  - by rewrite !lookup_insert_ne.
Qed.

Lemma mountEntries_last (l1 l2 : list (string * ArrayBufferSlice)) (p : string)
    (b : ArrayBufferSlice) (rs : gmap string ArrayBufferSlice) :
  p ∉ l2.*1 → ResourceSystem.mountEntries (l1 ++ (p, b) :: l2) rs !! p = Some b.
Proof.
  intros Hp. rewrite mountEntries_app. simpl.
  rewrite mountEntries_other by done. apply lookup_insert_eq.
Qed.

(** X1. After [mountCRG1], a path that the archive does not name is looked
    up as before, and a path that it names is looked up to the buffer of
    its last entry of that name (its only one, the keys of an object being
    distinct): every file of the archive is found with its own buffer,
    whatever was mounted at its path before. *)
Theorem mountCRG1_lookup (n : CRG1Arc) (rs : gmap string ArrayBufferSlice) :
  (∀ p, p ∉ (Files n).*1 →
        ResourceSystem.lookupFile p (ResourceSystem.mountCRG1 n rs)
        = ResourceSystem.lookupFile p rs)
  ∧ (∀ l1 p b l2, Files n = l1 ++ (p, b) :: l2 → p ∉ l2.*1 →
        ResourceSystem.lookupFile p (ResourceSystem.mountCRG1 n rs) = Some b)
  ∧ (NoDup (Files n).*1 → ∀ p b, (p, b) ∈ Files n →
        ResourceSystem.lookupFile p (ResourceSystem.mountCRG1 n rs) = Some b).
Proof.
  unfold ResourceSystem.lookupFile, ResourceSystem.mountCRG1.
  split; [intros p Hp; by apply mountEntries_other|].
  assert (Hlast : ∀ l1 p b l2, Files n = l1 ++ (p, b) :: l2 → p ∉ l2.*1 →
            ResourceSystem.mountEntries (Files n) rs !! p = Some b).
  { intros l1 p b l2 -> Hp. by apply mountEntries_last. }
  split; [exact Hlast|].
  intros Hnd p b Hin. apply list_elem_of_split in Hin as (l1 & l2 & Heq).
  apply (Hlast l1 p b l2 Heq).
  rewrite Heq, fmap_app, fmap_cons in Hnd.
  apply NoDup_app in Hnd as (_ & _ & Hnd). by apply NoDup_cons in Hnd as [Hnd _].
Qed.

(** X2. The order in which an archive lists its files does not matter:
    two archives with the same entries, under distinct names, mount to the
    same namespace. *)
Theorem mountCRG1_any_order (n n' : CRG1Arc) (rs : gmap string ArrayBufferSlice) :
  NoDup (Files n).*1 → Files n ≡ₚ Files n' →
  ResourceSystem.mountCRG1 n rs = ResourceSystem.mountCRG1 n' rs.
Proof.
  intros Hnd Hperm. unfold ResourceSystem.mountCRG1. rewrite !mountEntries_union.
  f_equal. apply list_to_map_proper.
  - by rewrite fmap_reverse, reverse_Permutation.
  - by rewrite !reverse_Permutation.
Qed.

Lemma mountCRG1_any_order_witness :
  let a := ("/a", Sample.bytes "1") in
  let b := ("/b", Sample.bytes "2") in
  ResourceSystem.mountCRG1 {| Files := [a; b] |} ResourceSystem.new
  = ResourceSystem.mountCRG1 {| Files := [b; a] |} ResourceSystem.new.
Proof.
  intros a b.
  apply (mountCRG1_any_order {| Files := [a; b] |} {| Files := [b; a] |}).
  - simpl. apply NoDup_cons. split; [|apply NoDup_singleton].
    intros H. apply list_elem_of_singleton in H. discriminate H.
  - simpl. apply Permutation_swap.
Defined.

(** ** The joint download, in full *)

Section JointDownload.

Context (D : Decoders).

(** Every way the joint download can end. *)
Lemma fetchAll_cases (net : Network) (arcName : string) (s : store) :
  let a := pathBase +:+ "/" +:+ arcName in
  let m := pathBase +:+ "/" +:+ "mtd/Mtd.mtdbnd" in
  ∃ r s',
    fetchAll D net arcName s = (r, s', [Fetch a; Fetch m])
    ∧ dataFetcher s'
      = DataFetcher.fetchData (initialProgress net m)
          (DataFetcher.fetchData (initialProgress net a) (dataFetcher s))
    ∧ textureHolder s' = textureHolder s
    ∧ match respond net a, respond net m with
      | Some b1, Some b2 =>
          match BYML_parse D b1 with
          | Ok c =>
              r = Ok tt
              ∧ resourceSystem s'
                = if arcFirst net
                  then ResourceSystem.mountFile "mtd/Mtd.mtdbnd" b2
                         (ResourceSystem.mountCRG1 c (resourceSystem s))
                  else ResourceSystem.mountCRG1 c
                         (ResourceSystem.mountFile "mtd/Mtd.mtdbnd" b2 (resourceSystem s))
          | Throw e => r = Throw e
          end
      | None, Some _ => r = Throw (FetchError a)
      | Some b1, None =>
          r = if arcFirst net
              then match BYML_parse D b1 with
                   | Ok _ => Throw (FetchError m)
                   | Throw e => Throw e
                   end
              else Throw (FetchError m)
      | None, None => r = Throw (FetchError (if arcFirst net then a else m))
      end.
Proof.
  intros a m. subst a m.
  unfold fetchAll, fetchCRG1Arc_start, fetchLoose_start.
  rewrite bind_run. unfold fetchData at 1.
  rewrite bind_run. unfold fetchData at 1.
  destruct (arcFirst net); rewrite bind_run.
  - rewrite fetchCRG1Arc_resume_run.
    destruct (respond net (pathBase +:+ "/" +:+ arcName)) as [b1|].
    + destruct (BYML_parse D b1) as [c|e].
      * unfold mountCRG1 at 1. rewrite fetchLoose_resume_run.
        destruct (respond net (pathBase +:+ "/" +:+ "mtd/Mtd.mtdbnd")) as [b2|];
          eexists _, _; (split; [reflexivity|]); repeat split; reflexivity.
      * destruct (respond net (pathBase +:+ "/" +:+ "mtd/Mtd.mtdbnd")) as [b2|];
          eexists _, _; (split; [reflexivity|]); repeat split; reflexivity.
    + destruct (respond net (pathBase +:+ "/" +:+ "mtd/Mtd.mtdbnd")) as [b2|];
        eexists _, _; (split; [reflexivity|]); repeat split; reflexivity.
  - rewrite fetchLoose_resume_run.
    destruct (respond net (pathBase +:+ "/" +:+ "mtd/Mtd.mtdbnd")) as [b2|].
    + unfold mountFile at 1. rewrite fetchCRG1Arc_resume_run.
      destruct (respond net (pathBase +:+ "/" +:+ arcName)) as [b1|];
        [|eexists _, _; (split; [reflexivity|]); repeat split; reflexivity].
      destruct (BYML_parse D b1) as [c|e];
        eexists _, _; (split; [reflexivity|]); repeat split; reflexivity.
    + destruct (respond net (pathBase +:+ "/" +:+ arcName)) as [b1|];
        eexists _, _; (split; [reflexivity|]); repeat split; reflexivity.
Qed.

End JointDownload.

Lemma store_eq (s1 s2 : store) :
  dataFetcher s1 = dataFetcher s2 → resourceSystem s1 = resourceSystem s2 →
  textureHolder s1 = textureHolder s2 → s1 = s2.
Proof. destruct s1, s2. simpl. by intros -> -> ->. Qed.

(** X3. When the archive has no file named [mtd/Mtd.mtdbnd], it does not
    matter which of the two downloads completes first: the joint download
    ends with the same outcome, the same store and the same events. *)
Theorem joint_download_any_order (D : Decoders) (net : Network) (arcName : string)
    (s : store) (b1 b2 : ArrayBufferSlice) (c : CRG1Arc) :
  respond net (pathBase +:+ "/" +:+ arcName) = Some b1 →
  BYML_parse D b1 = Ok c →
  respond net (pathBase +:+ "/" +:+ "mtd/Mtd.mtdbnd") = Some b2 →
  "mtd/Mtd.mtdbnd" ∉ (Files c).*1 →
  fetchAll D (completing true net) arcName s = fetchAll D (completing false net) arcName s
  ∧ outcome (fetchAll D (completing true net) arcName s) = Ok tt.
Proof.
  intros Ha Hc Hm Hkey.
  destruct (fetchAll_cases D (completing true net) arcName s)
    as (r & s' & -> & Hf & Ht & Hcase).
  destruct (fetchAll_cases D (completing false net) arcName s)
    as (r0 & s0 & -> & Hf0 & Ht0 & Hcase0).
  simpl in Hcase, Hcase0, Hf, Hf0. rewrite Ha, Hm, Hc in Hcase, Hcase0.
  destruct Hcase as [-> Hrs], Hcase0 as [-> Hrs0].
  split; [|done]. f_equal. f_equal. apply store_eq; [congruence| |congruence].
  rewrite Hrs, Hrs0. unfold ResourceSystem.mountCRG1, ResourceSystem.mountFile.
  by rewrite mountEntries_insert.
Qed.

Lemma joint_download_any_order_witness :
  let D := Sample.decoders Sample.arc in
  fetchAll D (completing true Sample.net) "m10_01_00_00_arc.crg1" fresh
  = fetchAll D (completing false Sample.net) "m10_01_00_00_arc.crg1" fresh
  ∧ outcome (fetchAll D (completing true Sample.net) "m10_01_00_00_arc.crg1" fresh) = Ok tt.
Proof.
  intros D.
  apply (joint_download_any_order D Sample.net "m10_01_00_00_arc.crg1" fresh
           (Sample.bytes "?") (Sample.bytes "?") Sample.arc);
    [reflexivity | reflexivity | reflexivity |].
  intros H. apply list_elem_of_In in H. simpl in H.
  repeat (destruct H as [H|H]; [discriminate H|]). exact H.
Defined.

(** X4. After a joint download that succeeds, the buffer found at
    [mtd/Mtd.mtdbnd] (the path without the base) is the downloaded one
    when the archive completed first or has no file of that name; when the
    archive has one and completes last, the archive's buffer is found
    instead. Every other path is looked up as after mounting the archive
    alone. *)
Theorem material_definitions_after_download (D : Decoders) (net : Network)
    (arcName : string) (s : store) (b1 b2 : ArrayBufferSlice) (c : CRG1Arc) :
  respond net (pathBase +:+ "/" +:+ arcName) = Some b1 →
  BYML_parse D b1 = Ok c →
  respond net (pathBase +:+ "/" +:+ "mtd/Mtd.mtdbnd") = Some b2 →
  let ns := resourceSystem (final (fetchAll D net arcName s)) in
  (arcFirst net = true → ns !! "mtd/Mtd.mtdbnd" = Some b2)
  ∧ ("mtd/Mtd.mtdbnd" ∉ (Files c).*1 → ns !! "mtd/Mtd.mtdbnd" = Some b2)
  ∧ (arcFirst net = false →
     ∀ l1 b l2, Files c = l1 ++ ("mtd/Mtd.mtdbnd", b) :: l2 → "mtd/Mtd.mtdbnd" ∉ l2.*1 →
       ns !! "mtd/Mtd.mtdbnd" = Some b)
  ∧ (∀ p, p ≠ "mtd/Mtd.mtdbnd" →
       ns !! p = ResourceSystem.mountCRG1 c (resourceSystem s) !! p).
Proof.
  intros Ha Hc Hm ns. subst ns.
  destruct (fetchAll_cases D net arcName s) as (r & s' & -> & _ & _ & Hcase).
  simpl in Hcase. rewrite Ha, Hm, Hc in Hcase. destruct Hcase as [_ Hrs].
  unfold final. cbn [fst snd]. rewrite Hrs. clear Hrs.
  unfold ResourceSystem.mountCRG1, ResourceSystem.mountFile.
  split; [intros ->; apply lookup_insert_eq|].
  split.
  { intros Hkey. destruct (arcFirst net); [apply lookup_insert_eq|].
    rewrite mountEntries_insert by done. apply lookup_insert_eq. }
  split.
  { intros -> l1 b l2 -> Hl2. by apply mountEntries_last. }
  intros p Hp. destruct (arcFirst net).
  - by rewrite lookup_insert_ne.
  - apply mountEntries_agree. by rewrite lookup_insert_ne.
Qed.

Lemma material_definitions_after_download_witness :
  resourceSystem
    (final (fetchAll (Sample.decoders Sample.arc) Sample.net "m10_01_00_00_arc.crg1" fresh))
    !! "mtd/Mtd.mtdbnd"
  = Some (Sample.bytes "?").
Proof.
  destruct (material_definitions_after_download (Sample.decoders Sample.arc) Sample.net
              "m10_01_00_00_arc.crg1" fresh (Sample.bytes "?") (Sample.bytes "?") Sample.arc
              eq_refl eq_refl eq_refl) as (H & _).
  apply H. reflexivity.
Defined.

(** X5. A bulk archive that downloads but does not decode rejects the
    load: [createScene] returns no scene, has done nothing but start the
    two downloads (no lookup, no console output), and has registered no
    texture; when the other download resolves, the error is the
    decoder's. *)
Theorem undecodable_archive_rejects_load (D : Decoders) (net : Network) (id : string)
    (s : store) (b1 : ArrayBufferSlice) (e : error) :
  respond net (pathBase +:+ "/" +:+ (id +:+ "_arc.crg1")) = Some b1 →
  BYML_parse D b1 = Throw e →
  let run := createScene D net id s in
  is_Ok (outcome run) = false
  ∧ trace run = [ Fetch (pathBase +:+ "/" +:+ (id +:+ "_arc.crg1"));
                  Fetch (pathBase +:+ "/" +:+ "mtd/Mtd.mtdbnd") ]
  ∧ textureHolder (final run) = textureHolder s
  ∧ (is_Some (respond net (pathBase +:+ "/" +:+ "mtd/Mtd.mtdbnd")) → outcome run = Throw e).
Proof.
  intros Ha Hc run. subst run. rewrite createScene_run.
  destruct (fetchAll_cases D net (id +:+ "_arc.crg1") s) as (r & s' & -> & _ & Ht & Hcase).
  simpl in Hcase. rewrite Ha, Hc in Hcase.
  destruct (respond net (pathBase +:+ "/" +:+ "mtd/Mtd.mtdbnd")) as [b2|].
  - subst r. by repeat split.
  - assert (Hr : r = Throw e ∨ r = Throw (FetchError (pathBase +:+ "/" +:+ "mtd/Mtd.mtdbnd")))
      by (destruct (arcFirst net); auto).
    split; [by destruct Hr as [-> | ->]|].
    split; [by destruct Hr as [-> | ->]|].
    split; [by destruct Hr as [-> | ->]|].
    by intros [? [=]].
Qed.

Lemma undecodable_archive_rejects_load_witness :
  let net := {| respond := fun _ => Some []; initialProgress := fun _ => 0%Q; arcFirst := true |} in
  let run := createScene (Sample.decoders Sample.arc) net "m10_01_00_00" fresh in
  outcome run = Throw (DecodeError "BYML")
  ∧ trace run = [ Fetch "dks/m10_01_00_00_arc.crg1"; Fetch "dks/mtd/Mtd.mtdbnd" ].
Proof.
  intros net run.
  destruct (undecodable_archive_rejects_load (Sample.decoders Sample.arc) net "m10_01_00_00"
              fresh [] (DecodeError "BYML") eq_refl eq_refl) as (_ & Ht & _ & He).
  split; [apply He; by eexists | exact Ht].
Defined.

(** ** What texture loading leaves behind *)

Lemma registered_nil (s : store) : registered [] s = s.
Proof. destruct s. unfold registered. simpl. by rewrite app_nil_r. Qed.

Lemma registered_app (ts1 ts2 : list TPF.Texture) (s : store) :
  registered ts2 (registered ts1 s) = registered (ts1 ++ ts2) s.
Proof. unfold registered. simpl. by rewrite app_assoc. Qed.

Lemma texturesAdded_refl (s : store) : texturesAdded s s.
Proof. repeat split. exists []. by rewrite app_nil_r. Qed.

Lemma texturesAdded_trans (s1 s2 s3 : store) :
  texturesAdded s1 s2 → texturesAdded s2 s3 → texturesAdded s1 s3.
Proof.
  intros (Hf & Hr & ts & Ht) (Hf' & Hr' & ts' & Ht').
  split; [congruence|]. split; [congruence|].
  exists (ts ++ ts'). by rewrite Ht', Ht, app_assoc.
Qed.

Lemma texturesAdded_registered (ts : list TPF.Texture) (s : store) :
  texturesAdded s (registered ts s).
Proof. repeat split. by exists ts. Qed.

(** Sequencing keeps a reflexive and transitive relation between the
    store before and the store after. *)
Lemma bind_frame {A B} (P : store → store → Prop) (m : M A) (k : A → M B) :
  (∀ s1 s2 s3, P s1 s2 → P s2 s3 → P s1 s3) →
  (∀ s, P s (final (m s))) →
  (∀ a s, P s (final (k a s))) →
  ∀ s, P s (final ((m ≫= k) s)).
Proof.
  intros Htrans Hm Hk s. rewrite bind_run.
  specialize (Hm s). destruct (m s) as [[[a|e] s1] evs1]; [|done].
  specialize (Hk a s1). destruct (k a s1) as [[r s2] evs2].
  by apply (Htrans s s1 s2).
Qed.

Section TextureFacts.

Context (D : Decoders).

Lemma loadRecord_accepts (r : BHD.FileRecord) (t : TPF.Texture) (s : store) :
  accepts D r t → loadRecord D r s = (Ok tt, registered [t] s, []).
Proof.
  intros (He & Hd & Hk). rewrite loadRecord_run, He, Hd. simpl.
  by rewrite Hk, String.eqb_refl.
Qed.

Lemma loadRecord_inv (r : BHD.FileRecord) (s : store) :
  (∃ t, accepts D r t ∧ loadRecord D r s = (Ok tt, registered [t] s, []))
  ∨ (∃ e, loadRecord D r s = (Throw e, s, []) ∧ ∀ t, ¬ accepts D r t).
Proof.
  rewrite loadRecord_run.
  destruct (JS.endsWith ".tpf.dcx" (BHD.name r)) eqn:He.
  2: { right. eexists. split; [done|]. intros t (He' & _). congruence. }
  destruct (decodeTextures D (Some (BHD.buffer r))) as [[ts]|e] eqn:Hd.
  2: { right. eexists. split; [done|]. intros t (_ & Hd' & _). congruence. }
  destruct ts as [|t0 [|t1 ts]]; simpl.
  - right. eexists. split; [done|]. intros t (_ & Hd' & _). congruence.
  - destruct (String.eqb_spec (key1 (BHD.name r)) (JS.toLowerCase (TPF.name t0))) as [Hk|Hk].
    + left. exists t0. by repeat split.
    + right. eexists. split; [done|]. intros t (_ & Hd' & Hk').
      rewrite Hd in Hd'. injection Hd' as <-. done.
  - right. eexists. split; [done|]. intros t (_ & Hd' & _). congruence.
Qed.

Lemma loadRecords_accepts (rs : list BHD.FileRecord) (ts : list TPF.Texture) :
  Forall2 (accepts D) rs ts →
  ∀ s, loadRecords D rs s = (Ok tt, registered ts s, []).
Proof.
  induction 1 as [|r t rs ts Hr _ IH]; intros s.
  - simpl. unfold mret, M_ret, ret. by rewrite registered_nil.
  - rewrite loadRecords_cons, (loadRecord_accepts r t s Hr), IH.
    by rewrite registered_app.
Qed.

(** The assertions on a record do not look at the store. *)
Lemma loadRecord_outcome (r : BHD.FileRecord) (s s' : store) :
  outcome (loadRecord D r s) = outcome (loadRecord D r s').
Proof.
  rewrite !loadRecord_run.
  destruct (JS.endsWith _ _); [|done].
  destruct (decodeTextures D _) as [[ts]|e]; [|done].
  destruct ts as [|t0 [|t1 ts]]; simpl; [done| |done].
  by destruct (String.eqb _ _).
Qed.

Lemma loadRecords_stops (rs1 rs2 : list BHD.FileRecord) (r : BHD.FileRecord)
    (ts : list TPF.Texture) (e : error) (s : store) :
  Forall2 (accepts D) rs1 ts →
  outcome (loadRecord D r s) = Throw e →
  loadRecords D (rs1 ++ r :: rs2) s = (Throw e, registered ts s, []).
Proof.
  intros Hrs1. revert s. induction Hrs1 as [|r1 t1 rs1 ts1 Hr1 _ IH]; intros s Hr.
  - rewrite registered_nil. by apply loadRecords_abort.
  - change ((r1 :: rs1) ++ r :: rs2) with (r1 :: (rs1 ++ r :: rs2)).
    rewrite loadRecords_cons, (loadRecord_accepts r1 t1 s Hr1).
    rewrite (loadRecord_outcome r s (registered [t1] s)) in Hr.
    rewrite (IH _ Hr). by rewrite registered_app.
Qed.

(** Whatever its outcome, the loop over the records of a bank ends in one
    of two ways: all records accepted, or a first record that is not. *)
Lemma loadRecords_inv (rs : list BHD.FileRecord) :
  ∀ s,
    (∃ ts, Forall2 (accepts D) rs ts ∧ loadRecords D rs s = (Ok tt, registered ts s, []))
    ∨ (∃ rs1 r rs2 ts e,
         rs = rs1 ++ r :: rs2
         ∧ Forall2 (accepts D) rs1 ts
         ∧ (∀ t, ¬ accepts D r t)
         ∧ loadRecords D rs s = (Throw e, registered ts s, [])).
Proof.
  induction rs as [|r rs IH]; intros s.
  - left. exists []. split; [constructor|]. by apply loadRecords_accepts.
  - destruct (loadRecord_inv r s) as [(t & Ht & Hrun)|(e & Hrun & Hno)].
    + destruct (IH (registered [t] s)) as [(ts & Hts & Hrs)|(rs1 & r' & rs2 & ts & e & -> & Hts & Hno & Hrs)].
      * left. exists (t :: ts). split; [by constructor|].
        apply loadRecords_accepts. by constructor.
      * right. exists (r :: rs1), r', rs2, (t :: ts), e.
        split; [done|]. split; [by constructor|]. split; [done|].
        rewrite loadRecords_cons, Hrun, Hrs. by rewrite registered_app.
    + right. exists [], r, rs, [], e. split; [done|]. split; [constructor|].
      split; [done|]. rewrite registered_nil. apply loadRecords_abort. by rewrite Hrun.
Qed.

End TextureFacts.

Lemma loadRecords_frame (D : Decoders) (rs : list BHD.FileRecord) (s : store) :
  texturesAdded s (final (loadRecords D rs s)).
Proof.
  destruct (loadRecords_inv D rs s)
    as [(ts & _ & ->)|(rs1 & r & rs2 & ts & e & _ & _ & _ & ->)];
    apply texturesAdded_registered.
Qed.

(** X6. When the two files of a split bank decode to a record list and
    every record passes the three assertions, the bank loads, and the
    texture holder afterwards is the holder before followed by exactly
    one texture per record, in the order of the records (nothing for a
    bank without records). Conversely, whenever a bank loads, the payload
    of each record, whose name ends with [.tpf.dcx], decoded to exactly
    one texture, and these textures, in the order of the records, are
    what was added; the namespace and the fetcher are as before. The
    assertion on the two keys is modelled with the case of the letters A
    to Z folded; keys that agree so agree when lower-cased in full, so a
    bank accepted here is accepted by the code. *)
Theorem bank_registers_one_texture_per_record (D : Decoders) (baseName : string)
    (s : store) :
  let run := loadTextureBHD D baseName s in
  (∀ bhd ts,
     BHD_parse D (resourceSystem s !! (baseName +:+ ".tpfbhd"))
                 (resourceSystem s !! (baseName +:+ ".tpfbdt")) = Ok bhd →
     Forall2 (accepts D) (BHD.fileRecords bhd) ts →
     outcome run = Ok tt
     ∧ textureHolder (final run) = textureHolder s ++ ts
     ∧ length (textureHolder (final run))
       = (length (textureHolder s) + length (BHD.fileRecords bhd))%nat)
  ∧ (outcome run = Ok tt →
     ∃ bhd ts,
       BHD_parse D (resourceSystem s !! (baseName +:+ ".tpfbhd"))
                   (resourceSystem s !! (baseName +:+ ".tpfbdt")) = Ok bhd
       ∧ length ts = length (BHD.fileRecords bhd)
       ∧ Forall2 (fun r t => JS.endsWith ".tpf.dcx" (BHD.name r) = true
                             ∧ decodeTextures D (Some (BHD.buffer r))
                               = Ok {| TPF.textures := [t] |})
                 (BHD.fileRecords bhd) ts
       ∧ textureHolder (final run) = textureHolder s ++ ts
       ∧ resourceSystem (final run) = resourceSystem s
       ∧ dataFetcher (final run) = dataFetcher s).
Proof.
  intros run. subst run. rewrite loadTextureBHD_run. split.
  - intros bhd ts -> Hts. rewrite (loadRecords_accepts D _ ts Hts s).
    unfold outcome, final. simpl. split; [done|]. split; [done|].
    rewrite length_app. f_equal. symmetry. by eapply Forall2_length.
  - destruct (BHD_parse D _ _) as [bhd|e]; [|done].
    unfold outcome at 1, final. cbn [fst snd].
    destruct (loadRecords_inv D (BHD.fileRecords bhd) s)
      as [(ts & Hts & ->)|(rs1 & r & rs2 & ts & e & _ & _ & _ & ->)]; [|done].
    intros _. exists bhd, ts. split; [done|].
    split; [symmetry; by eapply Forall2_length|].
    split; [|done].
    eapply Forall2_impl; [exact Hts|]. by intros r t (He & Hd & _).
Qed.

Lemma bank_registers_one_texture_per_record_witness :
  let D := Sample.decoders Sample.arc in
  let s := final (fetchAll D Sample.net "m10_01_00_00_arc.crg1" fresh) in
  outcome (loadTextureBHD D "/map/m10/m10_0000" s) = Ok tt
  ∧ textureHolder (final (loadTextureBHD D "/map/m10/m10_0000" s))
    = textureHolder s ++ [{| TPF.name := "x"; TPF.data := [] |}].
Proof.
  intros D s.
  destruct (bank_registers_one_texture_per_record D "/map/m10/m10_0000" s) as [H _].
  destruct (H {| BHD.fileRecords :=
                   [{| BHD.name := "X.tpf.dcx"; BHD.buffer := Sample.bytes "x" |}] |}
              [{| TPF.name := "x"; TPF.data := [] |}])
    as (H1 & H2 & _).
  - reflexivity.
  - repeat constructor.
  - split; [exact H1 | exact H2].
Defined.

(** X7. A record that fails its assertions or its decoding stops the bank
    where it stands: the textures of the records before it stay in the
    texture holder (there is no roll-back), the failing record and the
    records after it add nothing, and the exception is the one of the
    failing record. *)
Theorem bank_abort_keeps_earlier_textures (D : Decoders) (baseName : string)
    (s : store) (bhd : BHD.t) (rs1 rs2 : list BHD.FileRecord) (r : BHD.FileRecord)
    (ts : list TPF.Texture) (e : error) :
  BHD_parse D (resourceSystem s !! (baseName +:+ ".tpfbhd"))
              (resourceSystem s !! (baseName +:+ ".tpfbdt")) = Ok bhd →
  BHD.fileRecords bhd = rs1 ++ r :: rs2 →
  Forall2 (accepts D) rs1 ts →
  outcome (loadRecord D r s) = Throw e →
  outcome (loadTextureBHD D baseName s) = Throw e
  ∧ final (loadTextureBHD D baseName s) = registered ts s.
Proof.
  intros Hbhd Heq Hts Hr. rewrite loadTextureBHD_run, Hbhd, Heq.
  by rewrite (loadRecords_stops D rs1 rs2 r ts e s Hts Hr).
Qed.

Lemma bank_abort_keeps_earlier_textures_witness :
  let good := {| BHD.name := "X.tpf.dcx"; BHD.buffer := Sample.bytes "x" |} in
  let bad := {| BHD.name := "Y.tpf.dcx"; BHD.buffer := Sample.bytes "z" |} in
  let D := {| BYML_parse := BYML_parse (Sample.decoders Sample.arc);
              MSB_parse := MSB_parse (Sample.decoders Sample.arc);
              DCX_decompressBuffer := DCX_decompressBuffer (Sample.decoders Sample.arc);
              TPF_parse := TPF_parse (Sample.decoders Sample.arc);
              BHD_parse := fun _ _ => Ok {| BHD.fileRecords := [good; bad; good] |};
              BND3_parse := BND3_parse (Sample.decoders Sample.arc);
              FLVER_parse := FLVER_parse (Sample.decoders Sample.arc) |} in
  outcome (loadTextureBHD D "/map/m10/m10_0000" fresh) = Throw AssertionError
  ∧ final (loadTextureBHD D "/map/m10/m10_0000" fresh)
    = registered [{| TPF.name := "x"; TPF.data := [] |}] fresh.
Proof.
  intros good bad D.
  apply (bank_abort_keeps_earlier_textures D "/map/m10/m10_0000" fresh
           {| BHD.fileRecords := [good; bad; good] |} [good] [good] bad
           [{| TPF.name := "x"; TPF.data := [] |}] AssertionError).
  - reflexivity.
  - reflexivity.
  - repeat constructor.
  - reflexivity.
Defined.

(** X8. Loading textures, from a split bank or from the loose container,
    whatever the outcome, only adds textures to the texture holder: the
    namespace and the fetcher are as before, and no texture registered
    earlier is removed or moved. *)
Theorem texture_loading_only_adds_textures (D : Decoders) (baseName : string) (s : store) :
  texturesAdded s (final (loadTextureBHD D baseName s))
  ∧ texturesAdded s (final (loadTextureTPFDCX D baseName s)).
Proof.
  split.
  - rewrite loadTextureBHD_run. destruct (BHD_parse D _ _) as [bhd|e].
    + apply loadRecords_frame.
    + apply texturesAdded_refl.
  - rewrite loadTextureTPFDCX_run. destruct (decodeTextures D _) as [tpf|e].
    + apply texturesAdded_registered.
    + apply texturesAdded_refl.
Qed.

(** ** Backslashes in texture names *)

Lemma includesChar_removeAll (c : ascii) (s : string) :
  includesChar c (JS.removeAll c s) = false.
Proof.
  induction s as [|a s IH]; [done|]. simpl.
  destruct (Ascii.eqb a c) eqn:E; [done|]. simpl. by rewrite E.
Qed.

Lemma includesChar_drop (c : ascii) (n : nat) :
  ∀ s, includesChar c s = false → includesChar c (JS.drop n s) = false.
Proof.
  induction n as [|n IH]; intros [|a s] H; try done.
  simpl in *. apply orb_false_iff in H as [_ H]. by apply IH.
Qed.

Lemma includesChar_replaceFirst (c : ascii) (pat s : string) :
  includesChar c s = false → includesChar c (JS.replaceFirst pat s) = false.
Proof.
  induction s as [|a s IH]; intros H; rewrite replaceFirst_eq.
  - destruct (JS.startsWith pat ""); [by apply includesChar_drop | done].
  - destruct (JS.startsWith pat (String a s)); [by apply includesChar_drop|].
    simpl in *. apply orb_false_iff in H as [-> H]. by apply IH.
Qed.

Lemma lowerChar_backslash (a : ascii) :
  Ascii.eqb (JS.lowerChar a) "\"%char = Ascii.eqb a "\"%char.
Proof. by destruct a as [[] [] [] [] [] [] [] []]. Qed.

Lemma includesChar_toLowerCase (s : string) :
  includesChar "\"%char (JS.toLowerCase s) = includesChar "\"%char s.
Proof.
  induction s as [|a s IH]; [done|]. simpl. by rewrite lowerChar_backslash, IH.
Qed.

Lemma key1_no_backslash (name : string) : includesChar "\"%char (key1 name) = false.
Proof.
  unfold key1. rewrite includesChar_toLowerCase.
  apply includesChar_replaceFirst, includesChar_removeAll.
Qed.

(** X9. Backslashes are stripped from the declared name of a record but
    not from the name embedded in its texture: a record whose payload
    decodes to one texture with a backslash in its name never passes; it
    aborts the load with an assertion error and registers nothing,
    whatever the record is called. *)
Theorem backslash_in_texture_name_aborts (D : Decoders) (r : BHD.FileRecord)
    (t0 : TPF.Texture) (s : store) :
  decodeTextures D (Some (BHD.buffer r)) = Ok {| TPF.textures := [t0] |} →
  includesChar "\"%char (TPF.name t0) = true →
  loadRecord D r s = (Throw AssertionError, s, []).
Proof.
  intros Hd Hb. rewrite loadRecord_run, Hd.
  destruct (JS.endsWith _ _); [|done]. simpl.
  destruct (String.eqb_spec (key1 (BHD.name r)) (JS.toLowerCase (TPF.name t0))) as [Hk|Hk];
    [|done].
  pose proof (key1_no_backslash (BHD.name r)) as Hno.
  rewrite Hk, includesChar_toLowerCase, Hb in Hno. done.
Qed.

Lemma backslash_in_texture_name_aborts_witness :
  loadRecord (Sample.decoders Sample.arc)
    {| BHD.name := "a\b.tpf.dcx"; BHD.buffer := Sample.bytes "a\b" |} fresh
  = (Throw AssertionError, fresh, []).
Proof.
  apply (backslash_in_texture_name_aborts (Sample.decoders Sample.arc)
           {| BHD.name := "a\b.tpf.dcx"; BHD.buffer := Sample.bytes "a\b" |}
           {| TPF.name := "a\b"; TPF.data := [] |} fresh);
    reflexivity.
Defined.

(** ** The shape of the slot array *)

Section SlotArray.

Context {A : Type}.
Implicit Types (l : list (option A)) (v : A).

Lemma set_length l i v : length (JS.set l i v) = Nat.max (length l) (S i).
Proof.
  unfold JS.set. destruct (i <? length l)%nat eqn:Hi.
  - apply Nat.ltb_lt in Hi. rewrite length_insert. lia.
  - apply Nat.ltb_ge in Hi. rewrite !length_app, length_replicate. simpl. lia.
Qed.

(** A write never leaves a hole at the end of the array. *)
Lemma set_last l i v : last l ≠ Some None → last (JS.set l i v) ≠ Some None.
Proof.
  intros Hl. unfold JS.set. destruct (i <? length l)%nat eqn:Hi.
  - apply Nat.ltb_lt in Hi.
    destruct l as [|x l' _] using rev_ind; [simpl in Hi; lia|].
    rewrite last_snoc in Hl. rewrite length_app in Hi. simpl in Hi.
    destruct (decide (i < length l')%nat) as [Hlt|Hge].
    + rewrite insert_app_l by done. by rewrite last_snoc.
    + rewrite insert_app_r_alt by lia.
      replace (i - length l')%nat with 0%nat by lia. simpl. by rewrite last_snoc.
  - rewrite app_assoc, last_snoc. done.
Qed.

Lemma no_trailing_hole_nil l : last l ≠ Some None → (∀ i, JS.get l i = None) → l = [].
Proof.
  intros Hl Hget. destruct l as [|x l' _] using rev_ind; [done|].
  rewrite last_snoc in Hl. specialize (Hget (length l')).
  unfold JS.get in Hget. rewrite lookup_app_r, Nat.sub_diag in Hget by lia.
  simpl in Hget. by subst x.
Qed.

End SlotArray.

Section ModelLoopFacts.

Context (D : Decoders).

Lemma resolveModels_any (rest : list MSB.Model) :
  ∀ i flver s,
    final (resolveModels D i rest flver s) = s
    ∧ trace (resolveModels D i rest flver s) `prefix_of` (Lookup <$> modelLookups rest)
    ∧ (is_Ok (outcome (resolveModels D i rest flver s)) = true →
       trace (resolveModels D i rest flver s) = Lookup <$> modelLookups rest).
Proof.
  induction rest as [|m rest IH]; intros i flver s; [done|].
  rewrite resolveModels_cons. unfold modelLookups. simpl.
  destruct (MSB.type m =? 0)%Z; [|apply IH].
  destruct (decodeModel D _) as [g|e].
  - destruct (IH (S i) (if (0 <? length (FLVER.batches g))%nat
                        then JS.set flver i g else flver) s) as (Hf & Hp & Hok).
    destruct (resolveModels D (S i) rest _ s) as [[r s2] evs2].
    unfold final, trace, outcome in *. simpl in *.
    split; [done|]. split; [by apply prefix_cons|].
    intros Hr. by rewrite (Hok Hr).
  - unfold final, trace, outcome. simpl. split; [done|]. split; [|done].
    apply prefix_cons, prefix_nil.
Qed.

Lemma resolveModels_shape (rest : list MSB.Model) :
  ∀ i flver s slots,
    outcome (resolveModels D i rest flver s) = Ok slots →
    (length flver <= i)%nat → last flver ≠ Some None →
    (length slots <= i + length rest)%nat ∧ last slots ≠ Some None.
Proof.
  induction rest as [|m rest IH]; intros i flver s slots.
  - intros [= <-] Hlen Hlast. simpl. split; [lia | done].
  - rewrite resolveModels_cons.
    destruct (MSB.type m =? 0)%Z.
    + destruct (decodeModel D _) as [g|e]; [|done].
      destruct (resolveModels D (S i) rest _ s) as [[r s2] evs2] eqn:Hrun.
      unfold outcome. simpl. intros -> Hlen Hlast.
      assert (Hrun' : outcome (resolveModels D (S i) rest
                (if (0 <? length (FLVER.batches g))%nat then JS.set flver i g else flver) s)
              = Ok slots) by (by rewrite Hrun).
      apply IH in Hrun' as [Hl Hh].
      * split; [simpl; lia | done].
      * destruct (0 <? length (FLVER.batches g))%nat; [rewrite set_length|]; lia.
      * destruct (0 <? length (FLVER.batches g))%nat; [by apply set_last | done].
    + intros Hrun Hlen Hlast. apply IH in Hrun as [Hl Hh]; [|lia|done].
      split; [simpl; lia | done].
Qed.

Lemma modelLookups_cons (m : MSB.Model) (ms : list MSB.Model) :
  modelLookups (m :: ms)
  = if (MSB.type m =? 0)%Z then MSB.flverPath m :: modelLookups ms else modelLookups ms.
Proof. unfold modelLookups. simpl. by destruct (MSB.type m =? 0)%Z. Qed.

(** A loop that throws stopped at a model-kind entry whose file did not
    decode, after the lookups of the entries before it and its own. *)
Lemma resolveModels_failure (rest : list MSB.Model) :
  ∀ i flver s e,
    outcome (resolveModels D i rest flver s) = Throw e →
    ∃ ms1 m ms2,
      rest = ms1 ++ m :: ms2
      ∧ forallb (decodes D s) ms1 = true
      ∧ MSB.type m = 0%Z
      ∧ decodeModel D (resourceSystem s !! MSB.flverPath m) = Throw e
      ∧ trace (resolveModels D i rest flver s)
        = Lookup <$> (modelLookups ms1 ++ [MSB.flverPath m]).
Proof.
  induction rest as [|m rest IH]; intros i flver s e; [done|].
  rewrite resolveModels_cons.
  destruct (MSB.type m =? 0)%Z eqn:Hty.
  - destruct (decodeModel D _) as [g|e'] eqn:Hdec.
    + specialize (IH (S i) (if (0 <? length (FLVER.batches g))%nat
                            then JS.set flver i g else flver) s e).
      destruct (resolveModels D (S i) rest _ s) as [[r s2] evs2].
      unfold outcome, trace in *. cbn [fst snd] in *. intros Hr.
      destruct (IH Hr) as (ms1 & m' & ms2 & -> & Hall & Hm & Hd & ->).
      exists (m :: ms1), m', ms2. split; [done|].
      split; [simpl; unfold decodes at 1; by rewrite Hty, Hdec|].
      split; [done|]. split; [done|].
      by rewrite modelLookups_cons, Hty.
    + unfold outcome, trace. cbn [fst snd]. intros [= ->].
      exists [], m, rest. split; [done|]. split; [done|].
      split; [by apply Z.eqb_eq|]. by split.
  - intros Hr. destruct (IH (S i) flver s e Hr) as (ms1 & m' & ms2 & -> & Hall & Hm & Hd & Ht).
    exists (m :: ms1), m', ms2. split; [done|].
    split; [simpl; unfold decodes at 1; by rewrite Hty|].
    split; [done|]. split; [done|].
    by rewrite modelLookups_cons, Hty.
Qed.

End ModelLoopFacts.

(** X10. The model loop asks the namespace for the file of every
    model-kind entry, in the order of the placement table, and for
    nothing else: entries of another kind cause no lookup. A loop that
    completes has made exactly these lookups. A loop that throws stopped
    at a model-kind entry whose file did not decode, with the error of
    that decoder; every entry before it was passed, and the lookups made
    are exactly those of the model-kind entries before it followed by the
    lookup of the failing entry itself. In either case the loop changes
    nothing in the store. *)
Theorem model_loop_consults_model_entries_only (D : Decoders) (ms : list MSB.Model)
    (s : store) :
  let run := resolveModels D 0 ms [] s in
  final run = s
  ∧ modelLookups ms = MSB.flverPath <$> filter (fun m => MSB.type m = 0%Z) ms
  ∧ trace run `prefix_of` (Lookup <$> modelLookups ms)
  ∧ (is_Ok (outcome run) = true → trace run = Lookup <$> modelLookups ms)
  ∧ (∀ e, outcome run = Throw e →
       ∃ ms1 m ms2,
         ms = ms1 ++ m :: ms2
         ∧ forallb (decodes D s) ms1 = true
         ∧ MSB.type m = 0%Z
         ∧ decodeModel D (resourceSystem s !! MSB.flverPath m) = Throw e
         ∧ trace run = Lookup <$> (modelLookups ms1 ++ [MSB.flverPath m])
         ∧ length (trace run)
           = S (length (filter (fun m => MSB.type m = 0%Z) ms1))).
Proof.
  intros run. destruct (resolveModels_any D ms 0 [] s) as (Hf & Hp & Hok).
  assert (Hfilter : ∀ l, modelLookups l
                         = MSB.flverPath <$> filter (fun m => MSB.type m = 0%Z) l).
  { clear. intros l. induction l as [|m l IH]; [done|].
    rewrite modelLookups_cons, filter_cons, IH.
    destruct (Z.eqb_spec (MSB.type m) 0) as [Hty|Hty].
    - by rewrite decide_True by done.
    - by rewrite decide_False by done. }
  split; [done|]. split; [apply Hfilter|]. split; [done|]. split; [done|].
  intros e He. subst run.
  destruct (resolveModels_failure D ms 0 [] s e He)
    as (ms1 & m & ms2 & -> & Hall & Hm & Hd & Ht).
  exists ms1, m, ms2. repeat (split; [done|]).
  rewrite Ht, length_fmap, length_app, Hfilter, length_fmap. simpl. lia.
Qed.

Example model_loop_stops_at_second_entry :
  let D := Sample.decoders Sample.arc in
  let absent := {| MSB.type := 0; MSB.flverPath := "/absent.flver.dcx" |} in
  let other := {| MSB.type := 1; MSB.flverPath := "/other" |} in
  trace (resolveModels D 0 [other; absent; absent] [] fresh)
  = [Lookup "/absent.flver.dcx"].
Proof. reflexivity. Qed.

(** X11. The slot array that the model loop returns is never longer than
    the placement table and never ends in a hole: it reaches just past
    the last entry that got a model, so entries after that one are beyond
    its end, and it is empty when no entry got a model. *)
Theorem slot_array_has_no_trailing_hole (D : Decoders) (ms : list MSB.Model)
    (s : store) (flver : list (option FLVER.FLVER)) :
  outcome (resolveModels D 0 ms [] s) = Ok flver →
  (length flver <= length ms)%nat
  ∧ last flver ≠ Some None
  ∧ ((∀ i, JS.get flver i = None) → flver = []).
Proof.
  intros Hrun.
  destruct (resolveModels_shape D ms 0 [] s flver Hrun) as [Hlen Hlast];
    [simpl; lia | done |].
  split; [done|]. split; [done|]. by apply no_trailing_hole_nil.
Qed.

Lemma slot_array_has_no_trailing_hole_witness :
  let D := Sample.decoders Sample.arc in
  let s := final (fetchAll D Sample.net "m10_01_00_00_arc.crg1" fresh) in
  let ms := [ {| MSB.type := 0; MSB.flverPath := "/model/m.flver.dcx" |};
              {| MSB.type := 1; MSB.flverPath := "/model/P.flver.dcx" |} ] in
  ∃ flver, outcome (resolveModels D 0 ms [] s) = Ok flver
           ∧ length flver = 1%nat
           ∧ (length flver <= length ms)%nat
           ∧ last flver ≠ Some None.
Proof.
  intros D s ms. eexists. split; [vm_compute; reflexivity|]. split; [reflexivity|].
  destruct (slot_array_has_no_trailing_hole D ms s _ eq_refl) as (H1 & H2 & _).
  split; [exact H1 | exact H2].
Defined.

(** ** The model holder, made and released *)

Lemma upload_length (rest : list (option FLVER.FLVER)) :
  ∀ i acc, (length (ModelHolder.upload i rest acc) <= Nat.max (length acc) (i + length rest))%nat.
Proof.
  induction rest as [|[f|] rest IH]; intros i acc; simpl.
  - lia.
  - etrans; [apply IH|]. rewrite set_length. lia.
  - etrans; [apply IH|]. lia.
Qed.

Lemma destroyFrom_elem (rest : list (option FLVERData)) :
  ∀ i j, FLVERDataDestroy j ∈ ModelHolder.destroyFrom i rest
         ↔ (i <= j)%nat ∧ is_Some (JS.get rest (j - i)).
Proof.
  induction rest as [|x rest IH]; intros i j.
  - simpl. split; [by intros ?%elem_of_nil | by intros [_ [? ?]]].
  - assert (Htail : (S i <= j)%nat → JS.get (x :: rest) (j - i) = JS.get rest (j - S i)).
    { intros H. by replace (j - i)%nat with (S (j - S i)) by lia. }
    destruct x as [d|]; simpl.
    + rewrite elem_of_cons, IH. split.
      * intros [[= ->]|[Hj Hs]].
        -- split; [lia|]. rewrite Nat.sub_diag. by eexists.
        -- split; [lia|]. by rewrite Htail.
      * intros [Hj Hs]. destruct (decide (j = i)) as [->|Hne]; [by left|].
        right. split; [lia|]. by rewrite <- Htail by lia.
    + rewrite IH. split.
      * intros [Hj Hs]. split; [lia|]. by rewrite Htail.
      * intros [Hj Hs]. destruct (decide (j = i)) as [->|Hne].
        -- rewrite Nat.sub_diag in Hs. by destruct Hs.
        -- split; [lia|]. by rewrite <- Htail by lia.
Qed.

Lemma destroyFrom_NoDup (rest : list (option FLVERData)) :
  ∀ i, NoDup (ModelHolder.destroyFrom i rest).
Proof.
  induction rest as [|[d|] rest IH]; intros i; simpl; [constructor| |apply IH].
  apply NoDup_cons. split; [|apply IH].
  rewrite destroyFrom_elem. lia.
Qed.

(** X12. The model holder keeps every model at the index of its slot:
    slot [j] of the holder holds the GPU copy of the geometry of slot [j]
    of the array it was made from, and is a hole where that one is a hole
    or past the end; the holder's array is not longer than the one it
    was made from. *)
Theorem model_holder_keeps_indices (flver : list (option FLVER.FLVER)) :
  (∀ j, JS.get (ModelHolder.flverData (ModelHolder.new flver)) j
        = (fun g => {| flver := g |}) <$> JS.get flver j)
  ∧ (length (ModelHolder.flverData (ModelHolder.new flver)) <= length flver)%nat.
Proof.
  split; [intros j; apply ModelHolder_new_get|].
  unfold ModelHolder.new. simpl.
  etrans; [apply upload_length|]. simpl. lia.
Qed.

(** X13. Destroying a model holder releases the model of every present
    slot, each exactly once, and nothing else; for a holder made from a
    slot array these are the slots at which the array holds geometry. *)
Theorem model_holder_releases_each_model_once (h : ModelHolder.t)
    (flver : list (option FLVER.FLVER)) :
  NoDup (ModelHolder.destroy h)
  ∧ (∀ j, FLVERDataDestroy j ∈ ModelHolder.destroy h
          ↔ is_Some (JS.get (ModelHolder.flverData h) j))
  ∧ Forall (fun e => ∃ j, e = FLVERDataDestroy j) (ModelHolder.destroy h)
  ∧ (∀ j, FLVERDataDestroy j ∈ ModelHolder.destroy (ModelHolder.new flver)
          ↔ is_Some (JS.get flver j)).
Proof.
  assert (Hel : ∀ h' j, FLVERDataDestroy j ∈ ModelHolder.destroy h'
                        ↔ is_Some (JS.get (ModelHolder.flverData h') j)).
  { intros h' j. unfold ModelHolder.destroy. rewrite destroyFrom_elem, Nat.sub_0_r.
    split; [by intros [_ ?] | intros ?; split; [lia | done]]. }
  split; [apply destroyFrom_NoDup|]. split; [apply Hel|]. split.
  - eapply Forall_impl; [apply (destroyFrom_models _ 0)|].
    intros e (j & -> & _). by exists j.
  - intros j. rewrite Hel, ModelHolder_new_get. by rewrite fmap_is_Some.
Qed.

(** ** More on the fetcher *)

Section FetcherFacts.

Import DataFetcher.

Lemma step_report (f : t) (e : event) :
  progressMeter (step f e) = progressMeter f
  ∨ (fileProgressables (step f e) ≠ []
     ∧ progressMeter (step f e)
       = progressMeter f ++ [calcProgress (fileProgressables (step f e))]).
Proof.
  destruct e as [p0|i q]; simpl.
  - right. unfold fetchData, setProgress. simpl. split; [|done].
    by destruct (fileProgressables f).
  - unfold onProgress. destruct (i <? length (fileProgressables f))%nat eqn:Hi; [right|by left].
    apply Nat.ltb_lt in Hi. unfold setProgress. simpl. split; [|done].
    intros E. apply (f_equal length) in E. rewrite length_insert in E. simpl in E. lia.
Qed.

Lemma length_positive (ps : list Q) :
  ps ≠ [] → (0 < inject_Z (Z.of_nat (length ps)))%Q.
Proof.
  intros Hne. replace 0%Q with (inject_Z 0) by reflexivity. rewrite <- Zlt_Qlt.
  destruct ps; [done | simpl; lia].
Qed.

Lemma Qdiv_le_numerator (a b c : Q) : (0 < c)%Q → (a <= b)%Q → (a / c <= b / c)%Q.
Proof.
  intros Hc Hab. unfold Qdiv. apply Qmult_le_compat_r; [done|].
  apply Qinv_le_0_compat. by apply Qlt_le_weak.
Qed.

Lemma sum_of_fractions (ps : list Q) :
  Forall fraction ps →
  (0 <= sumProgress ps)%Q ∧ (sumProgress ps <= inject_Z (Z.of_nat (length ps)))%Q.
Proof.
  intros H. rewrite sumProgress_foldr.
  induction H as [|p ps [Hp0 Hp1] _ [IH0 IH1]].
  - split; apply Qle_refl.
  - split.
    + simpl. replace 0%Q with (0 + 0)%Q by reflexivity. by apply Qplus_le_compat.
    + simpl length. rewrite Nat2Z.inj_succ, <- Z.add_1_l, inject_Z_plus.
      simpl foldr. by apply Qplus_le_compat.
Qed.

Lemma mean_of_fractions (ps : list Q) :
  ps ≠ [] → Forall fraction ps →
  ∃ q, calcProgress ps = Some q ∧ fraction q.
Proof.
  intros Hne Hps. destruct (calcProgress_cases ps) as [[? _]|[_ ->]]; [done|].
  eexists. split; [done|]. pose proof (length_positive ps Hne) as Hn.
  destruct (sum_of_fractions ps Hps) as [H0 H1]. split.
  - apply Qle_shift_div_l; [done|]. by rewrite Qmult_0_l.
  - apply Qle_shift_div_r; [done|]. by rewrite Qmult_1_l.
Qed.

Lemma step_fractions (f : t) (e : event) :
  fractionEvent e → Forall fraction (fileProgressables f) →
  Forall fraction (fileProgressables (step f e)).
Proof.
  intros He Hf. destruct e as [p0|i q]; simpl in *.
  - apply Forall_app. split; [done | by constructor].
  - unfold onProgress. destruct (i <? length (fileProgressables f))%nat; [|done].
    simpl. by apply Forall_insert.
Qed.

Lemma sum_insert (ps : list Q) :
  ∀ i p q, ps !! i = Some p →
    (foldr Qplus 0 (<[i := q]> ps) == foldr Qplus 0 ps - p + q)%Q.
Proof.
  induction ps as [|x ps IH]; intros [|i] p q H; try done; simpl in *.
  - injection H as ->. ring.
  - rewrite (IH i p q H). ring.
Qed.

End FetcherFacts.

(** X14. The fetcher never drops a task: after any sequence of events its
    task list has exactly one entry per [fetchData] call, so a download
    that has completed keeps counting in the mean, and the sink has been
    given at most one value per event. *)
Theorem fetcher_never_drops_a_task (evs : list DataFetcher.event) :
  length (DataFetcher.fileProgressables (DataFetcher.run evs))
  = length (List.filter (fun e => match e with DataFetcher.Fetch _ => true | _ => false end) evs)
  ∧ (length (DataFetcher.progressMeter (DataFetcher.run evs)) <= length evs)%nat.
Proof.
  induction evs as [|e evs [IH1 IH2]] using rev_ind; [done|].
  rewrite run_snoc, List.filter_app, !length_app. split.
  - destruct e as [p0|i q]; simpl.
    + rewrite length_app, IH1. simpl. lia.
    + unfold DataFetcher.onProgress. case_match; simpl; [rewrite length_insert|]; lia.
  - destruct (step_report (DataFetcher.run evs) e) as [->|[_ ->]]; simpl.
    + lia.
    + rewrite length_app. simpl. lia.
Qed.

(** X15. When every progress value that enters the fetcher is a fraction
    between 0 and 1, so is every aggregate it reports. *)
Theorem aggregate_is_a_fraction (evs : list DataFetcher.event) :
  Forall fractionEvent evs →
  Forall (fun r => ∃ q, r = Some q ∧ fraction q)
         (DataFetcher.progressMeter (DataFetcher.run evs)).
Proof.
  intros Hevs.
  assert (H : Forall fraction (DataFetcher.fileProgressables (DataFetcher.run evs))
              ∧ Forall (fun r => ∃ q, r = Some q ∧ fraction q)
                       (DataFetcher.progressMeter (DataFetcher.run evs)));
    [|by destruct H].
  induction evs as [|e evs IH] using rev_ind; [by split; constructor|].
  apply Forall_app in Hevs as [Hevs He]. apply Forall_inv in He.
  destruct (IH Hevs) as [IHf IHr]. rewrite run_snoc.
  pose proof (step_fractions _ e He IHf) as Hf'. split; [done|].
  destruct (step_report (DataFetcher.run evs) e) as [->|[Hne ->]]; [done|].
  apply Forall_app. split; [done|]. apply Forall_singleton.
  by apply mean_of_fractions.
Qed.

Lemma aggregate_is_a_fraction_witness :
  Forall (fun r => ∃ q, r = Some q ∧ fraction q)
         (DataFetcher.progressMeter
            (DataFetcher.run [DataFetcher.Fetch 0; DataFetcher.Fetch 0;
                              DataFetcher.Progress 0 (1 # 2); DataFetcher.Progress 1 1])).
Proof.
  apply aggregate_is_a_fraction.
  repeat constructor; discriminate.
Defined.

(** X16. Once every registered download is complete (progress 1), the
    aggregate shown by the sink is 1. *)
Theorem all_complete_reports_one (evs : list DataFetcher.event) :
  DataFetcher.fileProgressables (DataFetcher.run evs) ≠ [] →
  Forall (fun p => (p == 1)%Q) (DataFetcher.fileProgressables (DataFetcher.run evs)) →
  ∃ m, DataFetcher.reported (DataFetcher.run evs) = Some m ∧ (m == 1)%Q.
Proof.
  intros Hne Hall. rewrite reported_invariant.
  set (ps := DataFetcher.fileProgressables (DataFetcher.run evs)) in *.
  destruct (calcProgress_cases ps) as [[? _]|[_ ->]]; [done|].
  eexists. split; [done|].
  assert (Hsum : (DataFetcher.sumProgress ps == inject_Z (Z.of_nat (length ps)))%Q).
  { rewrite sumProgress_foldr. clear Hne.
    induction Hall as [|p l Hp _ IH]; [reflexivity|].
    simpl length. rewrite Nat2Z.inj_succ, <- Z.add_1_l, inject_Z_plus.
    simpl foldr. by rewrite Hp, IH. }
  rewrite Hsum. field.
  intros E. pose proof (length_positive ps Hne) as Hn. rewrite E in Hn.
  by apply Qlt_irrefl in Hn.
Qed.

Lemma all_complete_reports_one_witness :
  ∃ m, DataFetcher.reported
         (DataFetcher.run [DataFetcher.Fetch 0; DataFetcher.Fetch 0;
                           DataFetcher.Progress 1 1; DataFetcher.Progress 0 1]) = Some m
       ∧ (m == 1)%Q.
Proof.
  apply all_complete_reports_one.
  - discriminate.
  - repeat constructor.
Defined.

(** X17. A progress event that does not lower the fraction of its
    download does not lower the aggregate: between registrations the
    value shown by the sink moves back only if a download's own progress
    does. *)
Theorem progress_never_lowers_aggregate (evs : list DataFetcher.event) (i : nat) (p q : Q) :
  DataFetcher.fileProgressables (DataFetcher.run evs) !! i = Some p →
  (p <= q)%Q →
  ∃ a b, DataFetcher.reported (DataFetcher.run evs) = Some a
         ∧ DataFetcher.reported (DataFetcher.onProgress i q (DataFetcher.run evs)) = Some b
         ∧ (a <= b)%Q.
Proof.
  intros Hi Hpq. rewrite reported_invariant.
  set (f := DataFetcher.run evs) in *.
  set (ps := DataFetcher.fileProgressables f) in *.
  assert (Hlt : (i < length ps)%nat) by (by eapply lookup_lt_Some).
  assert (Hne : ps ≠ []) by (intros E; rewrite E in Hlt; simpl in Hlt; lia).
  unfold DataFetcher.onProgress. fold ps.
  rewrite (proj2 (Nat.ltb_lt _ _) Hlt), reported_setProgress.
  destruct (calcProgress_cases ps) as [[? _]|[_ ->]]; [done|].
  destruct (calcProgress_cases (<[i:=q]> ps)) as [[E _]|[_ ->]].
  { apply (f_equal length) in E. rewrite length_insert in E. simpl in E. lia. }
  eexists _, _. split; [done|]. split; [done|].
  rewrite length_insert. apply Qdiv_le_numerator; [by apply length_positive|].
  rewrite !sumProgress_foldr, (sum_insert ps i p q Hi).
  apply Qle_minus_iff in Hpq. apply Qle_minus_iff.
  setoid_replace (foldr Qplus 0 ps - p + q + - foldr Qplus 0 ps)%Q with (q + - p)%Q
    using relation Qeq by ring.
  done.
Qed.

Lemma progress_never_lowers_aggregate_witness :
  ∃ a b,
    DataFetcher.reported (DataFetcher.run [DataFetcher.Fetch 0; DataFetcher.Fetch 0]) = Some a
    ∧ DataFetcher.reported
        (DataFetcher.onProgress 1 (1 # 2) (DataFetcher.run [DataFetcher.Fetch 0; DataFetcher.Fetch 0]))
      = Some b
    ∧ (a <= b)%Q.
Proof.
  apply (progress_never_lowers_aggregate [DataFetcher.Fetch 0; DataFetcher.Fetch 0] 1 0 (1 # 2)).
  - reflexivity.
  - discriminate.
Defined.

(** ** The scene that a load returns *)

Section SceneFacts.

Context (D : Decoders).

Lemma loadTextureBHD_ok (baseName : string) (s s' : store) (x : unit) (evs : list event) :
  loadTextureBHD D baseName s = (Ok x, s', evs) →
  ∃ bhd ts,
    BHD_parse D (resourceSystem s !! (baseName +:+ ".tpfbhd"))
                (resourceSystem s !! (baseName +:+ ".tpfbdt")) = Ok bhd
    ∧ Forall2 (accepts D) (BHD.fileRecords bhd) ts
    ∧ s' = registered ts s.
Proof.
  rewrite loadTextureBHD_run. destruct (BHD_parse D _ _) as [bhd|e]; [|done].
  destruct (loadRecords_inv D (BHD.fileRecords bhd) s)
    as [(ts & Hts & ->)|(rs1 & r & rs2 & ts & e & _ & _ & _ & ->)]; [|done].
  unfold outcome, final. simpl. intros [= _ <- _]. by exists bhd, ts.
Qed.

(** The textures of a load that gets through [build], bank by bank. *)
Lemma build_textures (id : string) (msb : MSB.t) (s s' : store) (r : DKSRenderer.t)
    (evs : list event) :
  build D id msb s = (Ok r, s', evs) →
  ∃ bhd0 bhd1 bhd2 bhd3 tpf ts0 ts1 ts2 ts3,
    ( BHD_parse D (resourceSystem s !! (bankName id "0000" +:+ ".tpfbhd"))
                  (resourceSystem s !! (bankName id "0000" +:+ ".tpfbdt")) = Ok bhd0
      ∧ BHD_parse D (resourceSystem s !! (bankName id "0001" +:+ ".tpfbhd"))
                    (resourceSystem s !! (bankName id "0001" +:+ ".tpfbdt")) = Ok bhd1
      ∧ BHD_parse D (resourceSystem s !! (bankName id "0002" +:+ ".tpfbhd"))
                    (resourceSystem s !! (bankName id "0002" +:+ ".tpfbdt")) = Ok bhd2
      ∧ BHD_parse D (resourceSystem s !! (bankName id "0003" +:+ ".tpfbhd"))
                    (resourceSystem s !! (bankName id "0003" +:+ ".tpfbdt")) = Ok bhd3
      ∧ decodeTextures D (resourceSystem s !! (bankName id "9999" +:+ ".tpf.dcx")) = Ok tpf )
    ∧ ( Forall2 (accepts D) (BHD.fileRecords bhd0) ts0
        ∧ Forall2 (accepts D) (BHD.fileRecords bhd1) ts1
        ∧ Forall2 (accepts D) (BHD.fileRecords bhd2) ts2
        ∧ Forall2 (accepts D) (BHD.fileRecords bhd3) ts3 )
    ∧ s' = registered (ts0 ++ ts1 ++ ts2 ++ ts3 ++ TPF.textures tpf) s.
Proof.
  unfold build. rewrite bind_run.
  destruct (resolveModels D 0 _ [] s) as [[[flver|e] s1] evs1] eqn:Hres; [|done].
  destruct (resolveModels_ok D _ _ _ _ _ _ _ Hres) as (-> & -> & _).
  rewrite bind_run.
  destruct (loadTextureBHD D (bankName id "0000") s) as [[[x0|e] t0] e0] eqn:H0; [|done].
  apply loadTextureBHD_ok in H0 as (bhd0 & ts0 & Hb0 & Hts0 & ->).
  rewrite bind_run.
  destruct (loadTextureBHD D (bankName id "0001") _) as [[[x1|e] t1] e1] eqn:H1; [|done].
  apply loadTextureBHD_ok in H1 as (bhd1 & ts1 & Hb1 & Hts1 & ->).
  rewrite bind_run.
  destruct (loadTextureBHD D (bankName id "0002") _) as [[[x2|e] t2] e2] eqn:H2; [|done].
  apply loadTextureBHD_ok in H2 as (bhd2 & ts2 & Hb2 & Hts2 & ->).
  rewrite bind_run.
  destruct (loadTextureBHD D (bankName id "0003") _) as [[[x3|e] t3] e3] eqn:H3; [|done].
  apply loadTextureBHD_ok in H3 as (bhd3 & ts3 & Hb3 & Hts3 & ->).
  rewrite bind_run, loadTextureTPFDCX_run.
  cbn [registered resourceSystem] in *.
  destruct (decodeTextures D _) as [tpf|e] eqn:Htpf; [|done].
  rewrite bind_run. unfold getTextureHolder at 1.
  intros [= _ <- _].
  exists bhd0, bhd1, bhd2, bhd3, tpf, ts0, ts1, ts2, ts3.
  split; [done|]. split; [done|].
  by rewrite !registered_app.
Qed.

Lemma loadTextureBHD_frame (baseName : string) (s : store) :
  texturesAdded s (final (loadTextureBHD D baseName s)).
Proof.
  rewrite loadTextureBHD_run. destruct (BHD_parse D _ _) as [bhd|e].
  - apply loadRecords_frame.
  - apply texturesAdded_refl.
Qed.

Lemma loadTextureTPFDCX_frame (baseName : string) (s : store) :
  texturesAdded s (final (loadTextureTPFDCX D baseName s)).
Proof.
  rewrite loadTextureTPFDCX_run. destruct (decodeTextures D _) as [tpf|e].
  - apply texturesAdded_registered.
  - apply texturesAdded_refl.
Qed.

Lemma build_frame (id : string) (msb : MSB.t) (s : store) :
  texturesAdded s (final (build D id msb s)).
Proof.
  revert s. unfold build.
  apply bind_frame; [apply texturesAdded_trans| |].
  { intros s. destruct (resolveModels_any D (MSB.models msb) 0 [] s) as (-> & _).
    apply texturesAdded_refl. }
  intros flver.
  do 4 (apply bind_frame;
        [apply texturesAdded_trans | apply loadTextureBHD_frame | intros _]).
  apply bind_frame;
    [apply texturesAdded_trans | apply loadTextureTPFDCX_frame | intros _].
  apply bind_frame; [apply texturesAdded_trans | |]; intros; apply texturesAdded_refl.
Qed.

Lemma assemble_frame (id : string) (s : store) :
  texturesAdded s (final (assemble D id s)).
Proof.
  rewrite assemble_run.
  destruct (MSB_parse D _ id) as [msb|e]; [|apply texturesAdded_refl].
  destruct (BND3_parse D _) as [mtdBnd|e]; [|apply texturesAdded_refl].
  pose proof (build_frame id msb s) as H.
  by destruct (build D id msb s) as [[r s2] evs2].
Qed.

End SceneFacts.

Lemma createScene_ok (D : Decoders) (net : Network) (id : string) (s : store)
    (r : DKSRenderer.t) :
  outcome (createScene D net id s) = Ok r →
  ∃ s1 msb s' evs2,
    final (fetchAll D net (id +:+ "_arc.crg1") s) = s1
    ∧ outcome (fetchAll D net (id +:+ "_arc.crg1") s) = Ok tt
    ∧ MSB_parse D (resourceSystem s1 !! msbPath id) id = Ok msb
    ∧ build D id msb s1 = (Ok r, s', evs2)
    ∧ final (createScene D net id s) = s'.
Proof.
  rewrite createScene_run.
  destruct (fetchAll D net _ s) as [[[[]|e] s1] evs1]; [|done].
  rewrite assemble_run.
  destruct (MSB_parse D _ id) as [msb|e] eqn:Hmsb; [|done].
  destruct (BND3_parse D _) as [mtdBnd|e]; [|done].
  destruct (build D id msb s1) as [[r' s2] evs2] eqn:Hbuild.
  unfold outcome, final. simpl. intros ->.
  by exists s1, msb, s2, evs2.
Qed.

(** X18. The scene that [createScene] returns has exactly one sub-scene
    renderer; that renderer is built over the very texture holder and
    model holder that the scene itself owns, and over the decoded
    placement table; the texture holder is the one the load filled. So
    [createPanels] on it does not throw and gives one layer panel, for
    that renderer, and a frame prepares that renderer once. *)
Theorem scene_has_one_renderer_sharing_holders (D : Decoders) (net : Network)
    (id : string) (s : store) (r : DKSRenderer.t) :
  outcome (createScene D net id s) = Ok r →
  ∃ sr table,
    DKSRenderer.sceneRenderers r = [sr]
    ∧ msbTextureHolder sr = DKSRenderer.textureHolder r
    ∧ msbModelHolder sr = DKSRenderer.modelHolder r
    ∧ msb sr = table
    ∧ MSB_parse D (resourceSystem (final (fetchAll D net (id +:+ "_arc.crg1") s)) !! msbPath id) id
      = Ok table
    ∧ DKSRenderer.textureHolder r = textureHolder (final (createScene D net id s))
    ∧ DKSRenderer.createPanels r = Ok [DKSRenderer.LayerPanel sr]
    ∧ DKSRenderer.prepareToRender r = [DKSRenderer.SceneRendererPrepare 0].
Proof.
  intros Hok.
  destruct (createScene_ok D net id s r Hok) as (s1 & msb0 & s' & evs2 & <- & _ & Hmsb & Hb & ->).
  apply build_ok in Hb as (flver & _ & _ & ->).
  eexists _, msb0. by repeat split.
Qed.

Lemma scene_has_one_renderer_sharing_holders_witness :
  ∃ r sr,
    outcome (createScene (Sample.decoders Sample.arc) Sample.net "m10_01_00_00" fresh) = Ok r
    ∧ DKSRenderer.sceneRenderers r = [sr]
    ∧ msbTextureHolder sr = DKSRenderer.textureHolder r
    ∧ msbModelHolder sr = DKSRenderer.modelHolder r
    ∧ DKSRenderer.createPanels r = Ok [DKSRenderer.LayerPanel sr].
Proof.
  eexists.
  destruct (scene_has_one_renderer_sharing_holders (Sample.decoders Sample.arc) Sample.net
              "m10_01_00_00" fresh _ eq_refl) as (sr & msb0 & H1 & H2 & H3 & _ & _ & _ & H7 & _).
  exists sr. split; [reflexivity|]. split; [exact H1|]. split; [exact H2|].
  split; [exact H3 | exact H7].
Defined.

(** X19. [createPanels] throws on a scene aggregate that has no sub-scene
    renderer yet; once renderers have been added it gives a single layer
    panel, for the one added first, however many there are. *)
Theorem createPanels_needs_a_renderer (th : list TPF.Texture) (mh : ModelHolder.t)
    (sr : MSBRenderer) (rest : list MSBRenderer) :
  DKSRenderer.createPanels (DKSRenderer.new th mh) = Throw TypeError
  ∧ DKSRenderer.createPanels
      (foldl (fun acc x => DKSRenderer.addSceneRenderer x acc) (DKSRenderer.new th mh)
             (sr :: rest))
    = Ok [DKSRenderer.LayerPanel sr].
Proof.
  split; [done|].
  destruct (registration_order (DKSRenderer.new th mh) (sr :: rest)) as [Hrs _].
  unfold DKSRenderer.createPanels. by rewrite Hrs.
Qed.

Lemma prepareRenderers_seq (rest : list MSBRenderer) :
  ∀ k, DKSRenderer.prepareRenderers k rest
       = DKSRenderer.SceneRendererPrepare <$> seq k (length rest).
Proof.
  induction rest as [|x rest IH]; intros k; [done|]. simpl. by rewrite IH.
Qed.

(** X20. A frame reaches every sub-scene renderer added so far, each
    exactly once and in the order in which they were added; on an
    aggregate without renderers it calls nothing. *)
Theorem prepareToRender_reaches_every_renderer (th : list TPF.Texture)
    (mh : ModelHolder.t) (rs : list MSBRenderer) :
  DKSRenderer.prepareToRender
    (foldl (fun acc x => DKSRenderer.addSceneRenderer x acc) (DKSRenderer.new th mh) rs)
  = DKSRenderer.SceneRendererPrepare <$> seq 0 (length rs).
Proof.
  destruct (registration_order (DKSRenderer.new th mh) rs) as [Hrs _].
  unfold DKSRenderer.prepareToRender. by rewrite Hrs, prepareRenderers_seq.
Qed.

(** X21. In a load that completes, the textures reach the texture holder
    in this order: one per record of bank 0000, then of 0001, 0002 and
    0003, each in the order of the bank's records and each accepted by
    the three assertions, and after them all textures of the loose
    container 9999; textures that were in the holder before stay in
    front. All containers are read from the namespace as the joint
    download left it. *)
Theorem textures_are_registered_bank_by_bank (D : Decoders) (net : Network)
    (id : string) (s : store) (r : DKSRenderer.t) :
  outcome (createScene D net id s) = Ok r →
  let ns := resourceSystem (final (fetchAll D net (id +:+ "_arc.crg1") s)) in
  ∃ bhd0 bhd1 bhd2 bhd3 tpf ts0 ts1 ts2 ts3,
    ( BHD_parse D (ns !! (bankName id "0000" +:+ ".tpfbhd"))
                  (ns !! (bankName id "0000" +:+ ".tpfbdt")) = Ok bhd0
      ∧ BHD_parse D (ns !! (bankName id "0001" +:+ ".tpfbhd"))
                    (ns !! (bankName id "0001" +:+ ".tpfbdt")) = Ok bhd1
      ∧ BHD_parse D (ns !! (bankName id "0002" +:+ ".tpfbhd"))
                    (ns !! (bankName id "0002" +:+ ".tpfbdt")) = Ok bhd2
      ∧ BHD_parse D (ns !! (bankName id "0003" +:+ ".tpfbhd"))
                    (ns !! (bankName id "0003" +:+ ".tpfbdt")) = Ok bhd3
      ∧ decodeTextures D (ns !! (bankName id "9999" +:+ ".tpf.dcx")) = Ok tpf )
    ∧ ( Forall2 (accepts D) (BHD.fileRecords bhd0) ts0
        ∧ Forall2 (accepts D) (BHD.fileRecords bhd1) ts1
        ∧ Forall2 (accepts D) (BHD.fileRecords bhd2) ts2
        ∧ Forall2 (accepts D) (BHD.fileRecords bhd3) ts3 )
    ∧ DKSRenderer.textureHolder r
      = textureHolder s ++ ts0 ++ ts1 ++ ts2 ++ ts3 ++ TPF.textures tpf.
Proof.
  intros Hok ns. subst ns.
  destruct (createScene_ok D net id s r Hok) as (s1 & msb0 & s' & evs2 & Hs1 & _ & _ & Hb & _).
  rewrite Hs1.
  destruct (fetchAll_cases D net (id +:+ "_arc.crg1") s) as (r0 & s0 & Hrun & _ & Ht & _).
  rewrite Hrun in Hs1. unfold final in Hs1. simpl in Hs1. subst s0.
  pose proof (build_ok D id msb0 s1 s' r evs2 Hb) as (flver & _ & _ & ->).
  apply build_textures in Hb
    as (bhd0 & bhd1 & bhd2 & bhd3 & tpf & ts0 & ts1 & ts2 & ts3 & Hdec & Hacc & ->).
  exists bhd0, bhd1, bhd2, bhd3, tpf, ts0, ts1, ts2, ts3.
  split; [done|]. split; [done|]. simpl. by rewrite Ht.
Qed.

Lemma textures_are_registered_bank_by_bank_witness :
  ∃ r, outcome (createScene (Sample.decoders Sample.arc) Sample.net "m10_01_00_00" fresh) = Ok r
       ∧ ∃ ts0 ts1 ts2 ts3 tpf,
           DKSRenderer.textureHolder r
           = textureHolder fresh ++ ts0 ++ ts1 ++ ts2 ++ ts3 ++ TPF.textures tpf
           ∧ length ts0 = 1%nat.
Proof.
  eexists. split; [vm_compute; reflexivity|].
  destruct (textures_are_registered_bank_by_bank (Sample.decoders Sample.arc) Sample.net
              "m10_01_00_00" fresh _ eq_refl)
    as (bhd0 & bhd1 & bhd2 & bhd3 & tpf & ts0 & ts1 & ts2 & ts3 & (Hb0 & _) & (Hts0 & _) & Hth).
  exists ts0, ts1, ts2, ts3, tpf. split; [exact Hth|].
  apply Forall2_length in Hts0. rewrite <- Hts0.
  vm_compute in Hb0. injection Hb0 as <-. reflexivity.
Defined.

(** X22. Whatever its outcome, a load begins by starting two downloads,
    the archive first, and by its end the fetcher tracks exactly two more
    tasks than before, whatever progress they reported meanwhile;
    everything after the joint download leaves the namespace alone, so
    the namespace at the end is the one the two mounts produced; and the
    texture holder only ever grows. *)
Theorem load_touches_namespace_only_when_mounting (D : Decoders) (net : Network)
    (id : string) (s : store) :
  let a := pathBase +:+ "/" +:+ (id +:+ "_arc.crg1") in
  let m := pathBase +:+ "/" +:+ "mtd/Mtd.mtdbnd" in
  let run := createScene D net id s in
  (∃ evs, trace run = Fetch a :: Fetch m :: evs)
  ∧ length (DataFetcher.fileProgressables (dataFetcher (final run)))
    = (length (DataFetcher.fileProgressables (dataFetcher s)) + 2)%nat
  ∧ resourceSystem (final run)
    = resourceSystem (final (fetchAll D net (id +:+ "_arc.crg1") s))
  ∧ ∃ ts, textureHolder (final run) = textureHolder s ++ ts.
Proof.
  intros a m run. subst a m run. rewrite createScene_run.
  destruct (fetchAll_cases D net (id +:+ "_arc.crg1") s) as (r0 & s1 & -> & Hf & Ht & _).
  assert (Hfp : length (DataFetcher.fileProgressables (dataFetcher s1))
                = (length (DataFetcher.fileProgressables (dataFetcher s)) + 2)%nat).
  { rewrite Hf. simpl. rewrite !length_app. simpl. lia. }
  destruct r0 as [[]|e].
  - destruct (assemble_frame D id s1) as (Hf' & Hr' & ts & Ht').
    destruct (assemble D id s1) as [[r s2] evs2].
    unfold final, trace in *. simpl in *.
    split; [by exists evs2|]. split; [congruence|]. split; [done|].
    exists ts. congruence.
  - unfold final, trace. simpl. split; [by exists []|]. split; [done|]. split; [done|].
    exists []. by rewrite app_nil_r.
Qed.

(** ** Paths and the catalog *)

Lemma append_inj_r (a b c : string) : a +:+ c = b +:+ c → a = b.
Proof.
  revert b. induction a as [|x a IH]; intros [|y b] H.
  - done.
  - apply (f_equal String.length) in H.
    change (String y b +:+ c) with (String y (b +:+ c)) in H.
    change ("" +:+ c) with c in H. simpl in H. rewrite length_app_string in H. lia.
  - apply (f_equal String.length) in H.
    change (String x a +:+ c) with (String x (a +:+ c)) in H.
    change ("" +:+ c) with c in H. simpl in H. rewrite length_app_string in H. lia.
  - change (String x (a +:+ c) = String y (b +:+ c)) in H.
    injection H as -> H. f_equal. by apply IH.
Qed.

Lemma msbPath_inj (id id' : string) : msbPath id = msbPath id' → id = id'.
Proof.
  unfold msbPath. intros H. apply (inj (String.app _)) in H. by apply append_inj_r in H.
Qed.

(** X23. Two scene identifiers that differ never share a bulk archive or
    a placement-table path, while the five texture containers depend on
    the first three characters of the identifier only: scenes of one map
    group read the same banks and the same loose container. *)
Theorem scene_paths (id id' : string) :
  (msbPath id = msbPath id' → id = id')
  ∧ (pathBase +:+ "/" +:+ (id +:+ "_arc.crg1") = pathBase +:+ "/" +:+ (id' +:+ "_arc.crg1")
     → id = id')
  ∧ (JS.slice0 3 id = JS.slice0 3 id' → textureLookups id = textureLookups id').
Proof.
  split; [|split].
  - apply msbPath_inj.
  - intros H. do 2 apply (inj (String.app _)) in H. by apply append_inj_r in H.
  - intros H. unfold textureLookups, bankName, mapKey. by rewrite H.
Qed.

(** X24. The catalog offers 18 scenes under pairwise distinct
    identifiers, hence with pairwise distinct archives and placement
    tables; every identifier has 12 characters, so that its map group has
    exactly 3, and the scenes fall into the nine groups [m10] to
    [m18]. *)
Theorem catalog_identifiers_are_distinct :
  length sceneDescs = 18%nat
  ∧ NoDup (sceneDescs.*1)
  ∧ NoDup (msbPath <$> sceneDescs.*1)
  ∧ Forall (fun id => String.length id = 12%nat ∧ String.length (mapKey id) = 3%nat)
           (sceneDescs.*1)
  ∧ remove_dups (mapKey <$> sceneDescs.*1)
    = ["m10"; "m11"; "m12"; "m13"; "m14"; "m15"; "m16"; "m17"; "m18"].
Proof.
  assert (Hnd : NoDup (sceneDescs.*1)).
  { apply (bool_decide_unpack _). by vm_compute. }
  split; [done|]. split; [done|]. split.
  - apply NoDup_fmap_2; [|done]. intros x y H. by apply msbPath_inj.
  - split; [|by vm_compute]. repeat constructor.
Qed.

(** ** Failing before the textures *)

(** X25. After a joint download that succeeded, a placement table that
    does not decode rejects the load after the single lookup of its path;
    a material container that does not decode rejects it after two
    lookups and before anything is logged; and a model that does not
    decode rejects it before any texture container is looked up. In all
    three cases the store is as the joint download left it: no texture
    has been registered. *)
Theorem failure_before_textures (D : Decoders) (net : Network) (id : string)
    (s : store) (e : error) :
  let a := pathBase +:+ "/" +:+ (id +:+ "_arc.crg1") in
  let m := pathBase +:+ "/" +:+ "mtd/Mtd.mtdbnd" in
  let s1 := final (fetchAll D net (id +:+ "_arc.crg1") s) in
  let run := createScene D net id s in
  outcome (fetchAll D net (id +:+ "_arc.crg1") s) = Ok tt →
  (MSB_parse D (resourceSystem s1 !! msbPath id) id = Throw e →
   run = (Throw e, s1, [Fetch a; Fetch m; Lookup (msbPath id)]))
  ∧ (∀ table, MSB_parse D (resourceSystem s1 !! msbPath id) id = Ok table →
       BND3_parse D (resourceSystem s1 !! "mtd/Mtd.mtdbnd") = Throw e →
       run = (Throw e, s1, [Fetch a; Fetch m; Lookup (msbPath id); Lookup "mtd/Mtd.mtdbnd"]))
  ∧ (∀ table mtdBnd, MSB_parse D (resourceSystem s1 !! msbPath id) id = Ok table →
       BND3_parse D (resourceSystem s1 !! "mtd/Mtd.mtdbnd") = Ok mtdBnd →
       outcome (resolveModels D 0 (MSB.models table) [] s1) = Throw e →
       outcome run = Throw e
       ∧ final run = s1
       ∧ ∃ paths, paths `prefix_of` modelLookups (MSB.models table)
                  ∧ trace run
                    = [Fetch a; Fetch m; Lookup (msbPath id); Lookup "mtd/Mtd.mtdbnd";
                       ConsoleLog mtdBnd] ++ (Lookup <$> paths)).
Proof.
  intros a m s1 run Hok. subst a m s1 run. rewrite createScene_run.
  destruct (fetchAll_cases D net (id +:+ "_arc.crg1") s) as (r0 & s1 & Hrun & _ & _ & _).
  rewrite Hrun in Hok |- *. unfold outcome in Hok. simpl in Hok. subst r0.
  unfold final. cbn [fst snd].
  rewrite assemble_run.
  split; [by intros ->|]. split; [by intros table -> ->|].
  intros table mtdBnd -> -> Hres.
  unfold build. rewrite bind_run.
  destruct (resolveModels_any D (MSB.models table) 0 [] s1) as (Hf & Hp & _).
  destruct (resolveModels D 0 (MSB.models table) [] s1) as [[[flver|e'] s2] evs2];
    [done|].
  unfold outcome, final, trace in *. simpl in *. injection Hres as ->. subst s2.
  split; [done|]. split; [done|].
  destruct Hp as [k Hk].
  apply fmap_app_inv in Hk as (paths & rest & -> & _ & Hml).
  exists paths. split; [by exists rest | done].
Qed.

Lemma failure_before_textures_witness :
  let D := Sample.decoders Sample.arcNoModel in
  let run := createScene D Sample.net "m10_01_00_00" fresh in
  outcome run = Throw TypeError
  ∧ final run = final (fetchAll D Sample.net "m10_01_00_00_arc.crg1" fresh)
  ∧ textureHolder (final run) = [].
Proof.
  intros D run.
  destruct (failure_before_textures D Sample.net "m10_01_00_00" fresh TypeError eq_refl)
    as (_ & _ & H).
  destruct (H _ _ eq_refl eq_refl eq_refl) as (H1 & H2 & _).
  split; [exact H1|]. split; [exact H2|]. subst run. rewrite H2. reflexivity.
Defined.
